(** * Vocalproof deepfake detector: the client contract, verified

    A shallow embedding of the two browser clients of the detector and of
    the part of the prediction service the specification describes:

    - [Front/src/App.jsx], the React client of the [/api/predict]
      deployment (module [React]);
    - the plain-script client of the [/predict] deployment, the script
      that follows the technical documentation (module [Script]);
    - the score interpreter and the upload-size gate of the prediction
      service, whose code is not part of the sources and is modelled from
      the specification (module [Service]).

    JavaScript values are modelled as the code meets them: parsed JSON
    bodies are values of [JSValue], objects are finite maps from property
    names to values, property reads of an absent key give [JUndefined],
    and [||] picks its left operand exactly when that operand is truthy.
    Numbers are exact rationals extended with the two infinities and NaN;
    the rounding of IEEE doubles and the sign of zero are not modelled. *)

From Stdlib Require Import QArith Qround Lqa Ascii String.
From stdpp Require Import gmap strings list pretty.

Set Warnings "-register-all".

Open Scope string_scope.
Open Scope list_scope.

(** ** JavaScript numbers *)

Inductive JSNum :=
  | Finite (q : Q)
  | PosInf
  | NegInf
  | NaN.

Definition is_NaN (n : JSNum) : bool :=
  match n with NaN => true | _ => false end.

Definition Qzero (q : Q) : bool := Qeq_bool q 0.
Definition Qneg (q : Q) : bool := negb (Qle_bool 0 q).

(** [a * b] on numbers. *)
Definition js_mul (a b : JSNum) : JSNum :=
  match a, b with
  | NaN, _ | _, NaN => NaN
  | Finite x, Finite y => Finite (x * y)
  | Finite x, PosInf | PosInf, Finite x =>
      if Qzero x then NaN else if Qneg x then NegInf else PosInf
  | Finite x, NegInf | NegInf, Finite x =>
      if Qzero x then NaN else if Qneg x then PosInf else NegInf
  | PosInf, PosInf | NegInf, NegInf => PosInf
  | PosInf, NegInf | NegInf, PosInf => NegInf
  end.

(** [a / b] on numbers; a zero divisor counts as positive zero. *)
Definition js_div (a b : JSNum) : JSNum :=
  match a, b with
  | NaN, _ | _, NaN => NaN
  | Finite x, Finite y =>
      if Qzero y
      then (if Qzero x then NaN else if Qneg x then NegInf else PosInf)
      else Finite (x / y)
  | Finite _, (PosInf | NegInf) => Finite 0
  | PosInf, Finite y => if Qneg y then NegInf else PosInf
  | NegInf, Finite y => if Qneg y then PosInf else NegInf
  | (PosInf | NegInf), (PosInf | NegInf) => NaN
  end.

(** [a - b] on numbers. *)
Definition js_sub (a b : JSNum) : JSNum :=
  match a, b with
  | NaN, _ | _, NaN => NaN
  | Finite x, Finite y => Finite (x - y)
  | Finite _, PosInf => NegInf
  | Finite _, NegInf => PosInf
  | PosInf, (Finite _ | NegInf) => PosInf
  | NegInf, (Finite _ | PosInf) => NegInf
  | PosInf, PosInf | NegInf, NegInf => NaN
  end.

(** [Math.round]: the nearest integer, a tie going up. *)
Definition Math_round (n : JSNum) : JSNum :=
  match n with
  | Finite q => Finite (inject_Z (Qfloor (q + (1 # 2))))
  | other => other
  end.

(** [Math.min(a, b)] and [Math.max(a, b)]: NaN when either argument is. *)
Definition Math_min (a b : JSNum) : JSNum :=
  match a, b with
  | NaN, _ | _, NaN => NaN
  | NegInf, _ | _, NegInf => NegInf
  | PosInf, other | other, PosInf => other
  | Finite x, Finite y => if Qle_bool x y then a else b
  end.

Definition Math_max (a b : JSNum) : JSNum :=
  match a, b with
  | NaN, _ | _, NaN => NaN
  | PosInf, _ | _, PosInf => PosInf
  | NegInf, other | other, NegInf => other
  | Finite x, Finite y => if Qle_bool y x then a else b
  end.

(** [Math.PI], the double nearest to pi, as the rational it denotes. *)
Definition Math_PI : Q := 884279719003555 # 281474976710656.

(** *** Printing numbers *)

(** The digits of [r / d] after the decimal point, [r < d], at most [fuel]
    of them, stopping when the expansion ends. *)
Fixpoint frac_digits (fuel : nat) (r d : Z) : string :=
  match fuel with
  | O => ""
  | S fuel' =>
      if (r =? 0)%Z then ""
      else pretty ((10 * r) / d)%Z +:+ frac_digits fuel' ((10 * r) mod d)%Z d
  end.

(** The positional decimal notation of a non-negative rational. *)
Definition decimal_of (q : Q) : string :=
  let n := Qnum q in
  let d := Z.pos (Qden q) in
  let whole := pretty (n / d)%Z in
  let r := (n mod d)%Z in
  if (r =? 0)%Z then whole else whole +:+ "." +:+ frac_digits 20 r d.

(** [Number::toString] in radix ten: exact for the integers and for the
    short decimals a JSON text carries (below 10^21 in magnitude, where
    JavaScript keeps positional notation). *)
Definition Number_toString (n : JSNum) : string :=
  match n with
  | NaN => "NaN"
  | PosInf => "Infinity"
  | NegInf => "-Infinity"
  | Finite q => if Qneg q then "-" +:+ decimal_of (- q) else decimal_of q
  end.

(** [x.toFixed(1)]: one digit after the point, the nearer tenth, a tie
    going away from zero. *)
Definition toFixed1_abs (q : Q) : string :=
  let n := Qfloor (q * 10 + (1 # 2)) in
  pretty (n / 10)%Z +:+ "." +:+ pretty (n mod 10)%Z.

Definition toFixed1 (n : JSNum) : string :=
  match n with
  | Finite q =>
      if Qneg q then "-" +:+ toFixed1_abs (- q) else toFixed1_abs q
  | other => Number_toString other
  end.

(** ** JavaScript values *)

Inductive JSValue :=
  | JUndefined
  | JNull
  | JBool (b : bool)
  | JNum (n : JSNum)
  | JStr (s : string)
  | JArr (items : list JSValue)
  | JObj (fields : gmap string JSValue).

(** Truthiness, as [if], [!], [&&] and [||] test it. *)
Definition truthy (v : JSValue) : bool :=
  match v with
  | JUndefined | JNull => false
  | JBool b => b
  | JNum (Finite q) => negb (Qzero q)
  | JNum NaN => false
  | JNum _ => true
  | JStr s => negb (String.eqb s "")
  | JArr _ | JObj _ => true
  end.

(** [a || b]. *)
Definition js_or (a b : JSValue) : JSValue := if truthy a then a else b.

(** [v === s] for a string literal [s]. *)
Definition strict_eq_str (v : JSValue) (s : string) : bool :=
  match v with JStr t => String.eqb t s | _ => false end.

(** [ToString], the conversion template literals and [new Error(v)] apply. *)
Fixpoint ToString (v : JSValue) : string :=
  match v with
  | JUndefined => "undefined"
  | JNull => "null"
  | JBool true => "true"
  | JBool false => "false"
  | JNum n => Number_toString n
  | JStr s => s
  | JArr items =>
      let element x :=
        match x with JUndefined | JNull => "" | _ => ToString x end in
      (fix join (l : list JSValue) : string :=
         match l with
         | [] => ""
         | [x] => element x
         | x :: rest => element x +:+ "," +:+ join rest
         end) items
  | JObj _ => "[object Object]"
  end.

(** *** Completions: a value, or a thrown error with its message *)

Inductive Completion (A : Type) :=
  | Normal (a : A)
  | Throw (message : string).
Arguments Normal {A} a.
Arguments Throw {A} message.

(** The message of the TypeError a property read of [null] or [undefined]
    throws (V8's wording; engines differ, and nothing below depends on the
    text beyond its not being empty). *)
Definition TypeError_message (base key : string) : string :=
  "Cannot read properties of " +:+ base +:+ " (reading '" +:+ key +:+ "')".

(** [v.key], for the property names the clients read ([success],
    [prediction], [label], [confidence], [audio_info],
    [processing_time_seconds], [error], [detail]): none of them is a
    property that strings, numbers, booleans or arrays define or that
    objects inherit, so only an own member of a parsed object answers. *)
Definition get_prop (v : JSValue) (key : string) : Completion JSValue :=
  match v with
  | JUndefined => Throw (TypeError_message "undefined" key)
  | JNull => Throw (TypeError_message "null" key)
  | JObj fields => Normal (default JUndefined (fields !! key))
  | _ => Normal JUndefined
  end.

(** [v.key] read where it cannot throw ([v] is neither [null] nor
    [undefined]). *)
Definition prop (v : JSValue) (key : string) : JSValue :=
  match get_prop v key with Normal w => w | Throw _ => JUndefined end.

(** The character [c] occurs in [s]. *)
Fixpoint has_char (c : ascii) (s : string) : bool :=
  match s with
  | EmptyString => false
  | String d rest => Ascii.eqb c d || has_char c rest
  end.

(** [message.includes(needle)]. *)
Fixpoint includes (needle s : string) : bool :=
  String.prefix needle s ||
  match s with
  | EmptyString => false
  | String _ rest => includes needle rest
  end.

(** ** Files, requests and responses *)

Record File := { name : string; content : list Byte.byte }.

(** [file.size], in bytes. *)
Definition size (f : File) : nat := length (content f).

(** A [FormData] body: the appended fields, in order. *)
Definition FormData := list (string * File).

Record Request := {
  url : string;
  method : string;
  headers : list (string * string);
  body : FormData
}.

(** What [response.json()] settles to: the parsed body, or a rejection
    with the parser's message when the body is not JSON. *)
Inductive Json :=
  | NotJSON (message : string)
  | Parsed (v : JSValue).

Record Response := { status : N; json : Json }.

(** [response.ok]: the status is in the range 200-299. *)
Definition ok (r : Response) : bool :=
  ((200 <=? status r) && (status r <=? 299))%N.

(** How [await fetch(...)] ends: rejected (no response: network failure,
    refused connection), or resolved with a response. *)
Inductive FetchOutcome :=
  | Rejected (message : string)
  | Responded (r : Response).

(** ** The React client ([Front/src/App.jsx]) *)

Module React.

(** The state of [App], one field per [useState]. *)
Record AppState := {
  file : option File;
  processing : bool;
  result : JSValue;
  confidence : JSValue;
  error : JSValue;
  audioInfo : JSValue;
  processingTime : JSValue
}.

Definition initial : AppState :=
  {| file := None; processing := false; result := JNull;
     confidence := JNum (Finite 0); error := JNull; audioInfo := JNull;
     processingTime := JNum (Finite 0) |}.

(** A call of one of the state setters. *)
Inductive Update :=
  | SetFile (f : option File)
  | SetProcessing (b : bool)
  | SetResult (v : JSValue)
  | SetConfidence (v : JSValue)
  | SetError (v : JSValue)
  | SetAudioInfo (v : JSValue)
  | SetProcessingTime (v : JSValue).

Definition apply_update (st : AppState) (u : Update) : AppState :=
  match u with
  | SetFile f =>
      {| file := f; processing := processing st; result := result st;
         confidence := confidence st; error := error st;
         audioInfo := audioInfo st; processingTime := processingTime st |}
  | SetProcessing b =>
      {| file := file st; processing := b; result := result st;
         confidence := confidence st; error := error st;
         audioInfo := audioInfo st; processingTime := processingTime st |}
  | SetResult v =>
      {| file := file st; processing := processing st; result := v;
         confidence := confidence st; error := error st;
         audioInfo := audioInfo st; processingTime := processingTime st |}
  | SetConfidence v =>
      {| file := file st; processing := processing st; result := result st;
         confidence := v; error := error st;
         audioInfo := audioInfo st; processingTime := processingTime st |}
  | SetError v =>
      {| file := file st; processing := processing st; result := result st;
         confidence := confidence st; error := v;
         audioInfo := audioInfo st; processingTime := processingTime st |}
  | SetAudioInfo v =>
      {| file := file st; processing := processing st; result := result st;
         confidence := confidence st; error := error st;
         audioInfo := v; processingTime := processingTime st |}
  | SetProcessingTime v =>
      {| file := file st; processing := processing st; result := result st;
         confidence := confidence st; error := error st;
         audioInfo := audioInfo st; processingTime := v |}
  end.

Definition apply_updates (st : AppState) (us : list Update) : AppState :=
  fold_left apply_update us st.

(** *** Effects: setter calls made so far, then a value or a throw *)

Definition Eff (A : Type) : Type := list Update * Completion A.

Definition ret {A} (a : A) : Eff A := ([], Normal a).
Definition throw {A} (message : string) : Eff A := ([], Throw message).
Definition call (u : Update) : Eff unit := ([u], Normal tt).
Definition lift {A} (c : Completion A) : Eff A := ([], c).

Definition bind {A B} (m : Eff A) (k : A -> Eff B) : Eff B :=
  match m with
  | (us, Normal a) => let '(vs, c) := k a in (us ++ vs, c)
  | (us, Throw message) => (us, Throw message)
  end.

Notation "'let!' x ':=' m 'in' k" := (bind m (fun x => k))
  (at level 10, x name, m at level 100, k at level 200, only parsing).
Notation "m ';;' k" := (bind m (fun _ => k))
  (at level 100, k at level 200, right associativity, only parsing).

(** [await response.json()]. *)
Definition await_json (response : Response) : Eff JSValue :=
  match json response with
  | NotJSON message => throw message
  | Parsed v => ret v
  end.

(** *** [FileUploader] and [handleFile] *)

(** [handleFile(f)]. *)
Definition handleFile (f : File) : list Update :=
  [SetFile (Some f); SetResult JNull; SetConfidence (JNum (Finite 0));
   SetError JNull; SetAudioInfo JNull].

(** [handleFiles(files)] of [FileUploader], with [handleFile] as [onFile]:
    [files?.[0]] is the first file of the list, if any. *)
Definition handleFiles (files : list File) : list Update :=
  match head files with
  | Some f => handleFile f
  | None => []
  end.

(** *** [analyze] *)

(** [API_BASE_URL], from the build-time variable [VITE_API_URL]. *)
Definition API_BASE_URL (VITE_API_URL : JSValue) : JSValue :=
  js_or VITE_API_URL (JStr "http://localhost:5000").

(** The two readings of [performance.now()], in milliseconds. *)
Record Timing := { startTime : Q; endTime : Q }.

(** The request [fetch] is called with. *)
Definition predict_request (VITE_API_URL : JSValue) (f : File) : Request :=
  {| url := ToString (API_BASE_URL VITE_API_URL) +:+ "/api/predict";
     method := "POST";
     headers := [("Accept", "application/json")];
     body := [("file", f)] |}.

(** [analyze], up to [await fetch(...)]: nothing when no file is selected,
    else the four setter calls and the request. *)
Definition analyze_begin (VITE_API_URL : JSValue) (st : AppState)
  : option (list Update * Request) :=
  match file st with
  | None => None
  | Some f =>
      Some ([SetProcessing true; SetResult JNull;
             SetConfidence (JNum (Finite 0)); SetError JNull],
            predict_request VITE_API_URL f)
  end.

(** The rest of the [try] block, once [fetch] has settled. *)
Definition try_block (t : Timing) (outcome : FetchOutcome) : Eff unit :=
  match outcome with
  | Rejected message => throw message
  | Responded response =>
      if negb (ok response) then
        let! errData := await_json response in
        let! e := lift (get_prop errData "error") in
        throw (ToString
                 (js_or e (JStr ("API error: " +:+ pretty (status response)))))
      else
        let! data := await_json response in
        let! success := lift (get_prop data "success") in
        if truthy success then
          let! prediction := lift (get_prop data "prediction") in
          call (SetResult prediction) ;;
          let! c := lift (get_prop data "confidence") in
          call (SetConfidence c) ;;
          let! info := lift (get_prop data "audio_info") in
          call (SetAudioInfo info) ;;
          let! seconds := lift (get_prop data "processing_time_seconds") in
          call (SetProcessingTime
                  (js_or seconds
                     (JNum (Finite ((endTime t - startTime t) / 1000)))))
        else
          let! e := lift (get_prop data "error") in
          call (SetError (js_or e (JStr "Prediction failed")))
  end.

(** The [catch] clause, for a thrown error with the given message. *)
Definition catch_clause (message : string) : list Update :=
  [SetError
     (js_or (JStr message)
        (JStr "Failed to connect to API. Make sure the backend is running on port 5000."))].

(** [analyze], from the settling of [fetch] to its end: the [try] block,
    the [catch] clause when it threw, and the [finally] clause. *)
Definition analyze_end (t : Timing) (outcome : FetchOutcome) : list Update :=
  match try_block t outcome with
  | (us, Normal _) => us ++ [SetProcessing false]
  | (us, Throw message) => us ++ catch_clause message ++ [SetProcessing false]
  end.

(** One whole call of [analyze]: the final state and the requests sent. *)
Definition analyze (VITE_API_URL : JSValue) (t : Timing)
    (outcome : FetchOutcome) (st : AppState) : AppState * list Request :=
  match analyze_begin VITE_API_URL st with
  | None => (st, [])
  | Some (us, request) =>
      (apply_updates (apply_updates st us) (analyze_end t outcome), [request])
  end.

(** *** What [App] renders from its state *)

(** The error panel: present when [error] is truthy, its text being the
    value of [error] itself. *)
Definition ErrorPanel (st : AppState) : option JSValue :=
  if truthy (error st) then Some (error st) else None.

(** [CircularConfidence]: the number printed in the centre and the two
    lengths of the [strokeDasharray] of the progress arc. *)
Record Circle := { percent : JSNum; dash : JSNum; gap : JSNum; red : bool }.

Definition radius : Q := 48.

(** [c], the circumference [2 * Math.PI * radius]. *)
Definition circumference : Q := 2 * Math_PI * radius.

Definition CircularConfidence (value : JSNum) (fake : bool) : Circle :=
  let normalized :=
    Math_max (Finite 0) (Math_min (Finite 100) (Math_round value)) in
  let c := Finite circumference in
  let dash := js_mul c (js_div normalized (Finite 100)) in
  {| percent := normalized; dash := dash; gap := js_sub c dash; red := fake |}.

(** [round(value)] clamped to the interval from 0 to 100, as an integer:
    the percentage a number other than NaN should be shown as. *)
Definition clamped_round (value : JSNum) : Z :=
  match value with
  | Finite q => Z.max 0 (Z.min 100 (Qfloor (q + (1 # 2))))
  | PosInf => 100
  | NegInf | NaN => 0
  end.

(** [ResultCard], up to its markup: nothing when [result] is falsy; else
    the values the markup is built from (the badge, the [value] and
    [fake] given to [CircularConfidence], the number in the caption, the
    time whose [toFixed(2)] is printed). What the card shows, with the
    call of [toFixed], which can throw, is [Components.ResultCard_view]. *)
Record Card := {
  badge : JSValue;
  fake : bool;
  indicator : JSValue;
  caption_confidence : JSValue;
  time : JSValue
}.

Definition ResultCard (result confidence processingTime : JSValue)
  : option Card :=
  if negb (truthy result) then None
  else
    Some {| badge := result; fake := strict_eq_str result "FAKE";
            indicator := confidence; caption_confidence := confidence;
            time := processingTime |}.

(** The Analyze button is disabled: [!file || processing]. *)
Definition analyze_disabled (st : AppState) : bool :=
  match file st with None => true | Some _ => processing st end.

(** *** The page as a transition system

    [App] changes state on three events: a file is chosen or dropped
    ([FileUploader] calls [handleFile]); the Analyze button, when enabled,
    is clicked ([analyze] runs up to its [await]); a pending [fetch]
    settles ([analyze] runs to its end). [inflight] counts the calls of
    [analyze] that are waiting for [fetch]. *)

Record UI := { app : AppState; inflight : nat }.

Definition initial_ui : UI := {| app := initial; inflight := 0 |}.

Inductive step (VITE_API_URL : JSValue) : UI -> UI -> Prop :=
  | step_select (u : UI) (files : list File) :
      step VITE_API_URL u
        {| app := apply_updates (app u) (handleFiles files);
           inflight := inflight u |}
  | step_click (u : UI) (us : list Update) (request : Request) :
      analyze_disabled (app u) = false ->
      analyze_begin VITE_API_URL (app u) = Some (us, request) ->
      step VITE_API_URL u
        {| app := apply_updates (app u) us; inflight := S (inflight u) |}
  | step_settle (u : UI) (t : Timing) (outcome : FetchOutcome) (n : nat) :
      inflight u = S n ->
      step VITE_API_URL u
        {| app := apply_updates (app u) (analyze_end t outcome);
           inflight := n |}.

Definition reachable (VITE_API_URL : JSValue) (u : UI) : Prop :=
  rtc (step VITE_API_URL) initial_ui u.

(** How many of the given setter calls are [setResult], and how many are
    [setError]. *)
Definition is_SetResult (u : Update) : bool :=
  match u with SetResult _ => true | _ => false end.
Definition is_SetError (u : Update) : bool :=
  match u with SetError _ => true | _ => false end.
Definition count_SetResult (us : list Update) : nat :=
  length (filter (fun u => is_SetResult u = true) us).
Definition count_SetError (us : list Update) : nat :=
  length (filter (fun u => is_SetError u = true) us).

(** The attempt did not end in a prediction: [fetch] was rejected, the
    status was not a success, the body was not JSON or could not be read,
    or the body's [success] was falsy. *)
Definition failed (outcome : FetchOutcome) : bool :=
  match outcome with
  | Rejected _ => true
  | Responded response =>
      negb (ok response) ||
      match json response with
      | NotJSON _ => true
      | Parsed data =>
          match get_prop data "success" with
          | Normal success => negb (truthy success)
          | Throw _ => true
          end
      end
  end.

(** At most one of [result] and [error] is set. *)
Definition exclusive (st : AppState) : Prop :=
  result st = JNull \/ error st = JNull.

(** What holds of every reachable page: no two calls of [analyze] wait at
    once; [processing] tells whether one does; while one waits, [result]
    and [error] are both cleared. *)
Definition ui_inv (u : UI) : Prop :=
  match inflight u with
  | O => processing (app u) = false /\ exclusive (app u)
  | S O =>
      processing (app u) = true /\
      result (app u) = JNull /\ error (app u) = JNull
  | S (S _) => False
  end.

(** The message a failed attempt carries: the message of the error that
    [fetch] or [response.json()] rejected with, or the string in the
    [error] member of the response body. *)
Definition error_message (outcome : FetchOutcome) : option string :=
  match outcome with
  | Rejected message => Some message
  | Responded response =>
      match json response with
      | NotJSON message => Some message
      | Parsed data =>
          match prop data "error" with
          | JStr message => Some message
          | _ => None
          end
      end
  end.

End React.

(** ** The plain-script client (the [/predict] deployment) *)

Module Script.

Definition API_URL : string := "http://127.0.0.1:8000/predict".

(** [showResult]'s effect on the page: the label shown, whether the box is
    styled as real, the badge, the percentage text and the bar's width. *)
Record ResultBox := {
  resultLabel : JSValue;
  isReal : bool;
  resultBadge : string;
  confText : string;
  progressWidth : string
}.

(** The page, as far as the script reads and writes it. [shown] holds the
    arguments of the [showResult] call whose result box is on display,
    [statusMsg] the text and the type of the status message on display. *)
Record Page := {
  selectedFile : option File;
  statusMsg : option (string * string);
  shown : option (JSValue * JSValue);
  fileName : string;
  preview : option File;
  predictDisabled : bool;
  spinner : bool
}.

Definition initial : Page :=
  {| selectedFile := None; statusMsg := None; shown := None; fileName := "";
     preview := None; predictDisabled := true; spinner := false |}.

(** [showStatus(msg, type)], [hideStatus()], [hideResult()]. *)
Definition showStatus (msg type : string) (p : Page) : Page :=
  {| selectedFile := selectedFile p; statusMsg := Some (msg, type);
     shown := shown p; fileName := fileName p; preview := preview p;
     predictDisabled := predictDisabled p; spinner := spinner p |}.

Definition hideStatus (p : Page) : Page :=
  {| selectedFile := selectedFile p; statusMsg := None;
     shown := shown p; fileName := fileName p; preview := preview p;
     predictDisabled := predictDisabled p; spinner := spinner p |}.

Definition hideResult (p : Page) : Page :=
  {| selectedFile := selectedFile p; statusMsg := statusMsg p;
     shown := None; fileName := fileName p; preview := preview p;
     predictDisabled := predictDisabled p; spinner := spinner p |}.

(** [showResult(label, confidence)] for a numeric [confidence]. *)
Definition showResult (label : JSValue) (confidence : JSNum) : ResultBox :=
  let pct := toFixed1 (js_mul confidence (Finite 100)) in
  let isReal := strict_eq_str label "REAL" in
  {| resultLabel := label; isReal := isReal;
     resultBadge := if isReal then "✓ Verified" else "⚠ Warning";
     confText := pct; progressWidth := pct +:+ "%" |}.

(** *** File handling *)

(** [name.split(".").pop()]: what follows the last dot, or the whole name
    when it has no dot. [acc] is the segment read so far. *)
Fixpoint last_segment (acc s : string) : string :=
  match s with
  | EmptyString => acc
  | String c rest =>
      if Ascii.eqb c "."%char then last_segment "" rest
      else last_segment (acc +:+ String c "") rest
  end.

(** [toLowerCase], on the ASCII letters. *)
Definition lower (c : ascii) : ascii :=
  let n := N_of_ascii c in
  if ((65 <=? n) && (n <=? 90))%N then ascii_of_N (n + 32) else c.

Fixpoint toLowerCase (s : string) : string :=
  match s with
  | EmptyString => EmptyString
  | String c rest => String (lower c) (toLowerCase rest)
  end.

Definition extension (f : File) : string :=
  toLowerCase (last_segment "" (name f)).

Definition allowed : list string := ["wav"; "flac"; "mp3"; "m4a"; "ogg"].

(** [allowed.includes(ext)]. *)
Definition is_allowed (ext : string) : bool :=
  existsb (String.eqb ext) allowed.

Definition quote : string := String (ascii_of_N 34) "".

(** [handleFile(file)]; [None] stands for an absent file. *)
Definition handleFile (file : option File) (p : Page) : Page :=
  match file with
  | None => p
  | Some f =>
      let ext := extension f in
      if negb (is_allowed ext) then
        showStatus
          ("Invalid file type " +:+ quote +:+ "." +:+ ext +:+ quote +:+
           ". Accepted: " +:+ String.concat ", " allowed) "warn" p
      else
        {| selectedFile := Some f; statusMsg := None; shown := None;
           fileName := name f; preview := Some f;
           predictDisabled := false; spinner := spinner p |}
  end.

(** *** The click handler of the predict button *)

Definition predict_request (f : File) : Request :=
  {| url := API_URL; method := "POST"; headers := [];
     body := [("file", f)] |}.

(** The handler up to [await fetch(...)]. *)
Definition click_begin (p : Page) : option (Page * Request) :=
  match selectedFile p with
  | None => None
  | Some f =>
      Some ({| selectedFile := selectedFile p; statusMsg := None;
               shown := None; fileName := fileName p; preview := preview p;
               predictDisabled := true; spinner := true |},
            predict_request f)
  end.

(** The [try] block once [fetch] has settled: the arguments [showResult]
    is called with, or the message of the error thrown. *)
Definition try_block (outcome : FetchOutcome)
  : Completion (JSValue * JSValue) :=
  match outcome with
  | Rejected message => Throw message
  | Responded res =>
      if negb (ok res) then
        let err :=
          match json res with
          | NotJSON _ => JObj ∅
          | Parsed v => v
          end in
        match get_prop err "detail" with
        | Throw message => Throw message
        | Normal detail =>
            Throw (ToString
                     (js_or detail
                        (JStr ("Server error (" +:+ pretty (status res) +:+ ")"))))
        end
      else
        match json res with
        | NotJSON message => Throw message
        | Parsed data =>
            match get_prop data "label" with
            | Throw message => Throw message
            | Normal label =>
                match get_prop data "confidence" with
                | Throw message => Throw message
                | Normal confidence => Normal (label, confidence)
                end
            end
        end
  end.

(** The handler from the settling of [fetch] to its end. *)
Definition click_end (outcome : FetchOutcome) (p : Page) : Page :=
  let p' :=
    match try_block outcome with
    | Normal args =>
        {| selectedFile := selectedFile p; statusMsg := statusMsg p;
           shown := Some args; fileName := fileName p; preview := preview p;
           predictDisabled := predictDisabled p; spinner := spinner p |}
    | Throw message =>
        if includes "Failed to fetch" message
        then showStatus "Cannot reach server. Is run_server.py running?"
               "error" p
        else showStatus message "error" p
    end in
  {| selectedFile := selectedFile p'; statusMsg := statusMsg p';
     shown := shown p'; fileName := fileName p'; preview := preview p';
     predictDisabled := false; spinner := false |}.

(** One whole click: the final page and the requests sent. *)
Definition click (outcome : FetchOutcome) (p : Page) : Page * list Request :=
  match click_begin p with
  | None => (p, [])
  | Some (p', request) => (click_end outcome p', [request])
  end.

End Script.

(** ** The prediction service *)

Module Service.

Inductive Label := REAL | FAKE.

Record PredictionResult := { label : Label; confidencePercent : Q }.

(** Modelled from the spec: the score interpreter of the server (the
    back end's [app.py] is not among the sources). The specification, 4.5:
    the decision rule is [score > 0.5 -> FAKE else REAL]; the confidence
    is [score * 100] for FAKE and [(1 - score) * 100] for REAL. *)
Definition ResultInterpreter (score : Q) : PredictionResult :=
  if negb (Qle_bool score (1 # 2))
  then {| label := FAKE; confidencePercent := score * 100 |}
  else {| label := REAL; confidencePercent := (1 - score) * 100 |}.

Inductive ServiceError :=
  | UnsupportedFormatError
  | CorruptAudioError
  | PayloadTooLargeError
  | FeatureExtractionError
  | ShapeMismatchError
  | ModelNotLoadedError.

(** The stages of the pipeline, as the service enters them. *)
Inductive Stage := Decode | Condition | Features | Infer | Interpret.

Record Upload := { filename : string; bytes : list Byte.byte }.

Definition upload_size (u : Upload) : N := N.of_nat (length (bytes u)).

(** The limit of the deployment the documentation describes: 30 MB. *)
Definition MAX_UPLOAD_BYTES : N := 30 * 1024 * 1024.

Section PredictionService.

(** The size limit, fixed at process start, and the stages the
    specification leaves to the audio and model libraries. *)
Variable max_size : N.
Variables AudioBuffer FeatureTensor : Type.
Variable AudioDecoder : Upload -> ServiceError + AudioBuffer.
Variable SignalConditioner : AudioBuffer -> AudioBuffer.
Variable FeatureExtractor : AudioBuffer -> ServiceError + FeatureTensor.
Variable infer : FeatureTensor -> ServiceError + Q.

(** Modelled from the spec: the orchestration of the server's predict
    route (not among the sources). The specification, 4.6: the service
    rejects with [PayloadTooLargeError] above the size limit before
    attempting decode, then runs the stages 4.1 to 4.5 in order, turning
    the failure of a stage into the error response. The first component
    lists the stages entered. *)
Definition PredictionService (u : Upload)
  : list Stage * (ServiceError + PredictionResult) :=
  if (max_size <? upload_size u)%N then ([], inl PayloadTooLargeError)
  else
    match AudioDecoder u with
    | inl e => ([Decode], inl e)
    | inr audio =>
        match FeatureExtractor (SignalConditioner audio) with
        | inl e => ([Decode; Condition; Features], inl e)
        | inr features =>
            match infer features with
            | inl e => ([Decode; Condition; Features; Infer], inl e)
            | inr score =>
                ([Decode; Condition; Features; Infer; Interpret],
                 inr (ResultInterpreter score))
            end
        end
    end.

End PredictionService.

End Service.

(** ** Sample inputs *)

Module Samples.

Import Byte.

(** A (truncated) WAV file and a text file. *)
Definition clip : File :=
  {| name := "clip.wav"; content := [x52; x49; x46; x46] |}.

Definition notes : File :=
  {| name := "notes.txt"; content := [x68; x69] |}.

Definition timing : React.Timing :=
  {| React.startTime := 1000; React.endTime := 1820 |}.

(** The success body the Flask deployment documents. *)
Definition prediction_body : JSValue :=
  JObj (<["prediction" := JStr "REAL"]>
        (<["confidence" := JNum (Finite (923 # 10))]>
         (<["processing_time_seconds" := JNum (Finite (82 # 100))]>
          {["success" := JBool true]}))).

(** The same without the server's timing. *)
Definition untimed_body : JSValue :=
  JObj (<["prediction" := JStr "REAL"]>
        (<["confidence" := JNum (Finite (923 # 10))]>
         {["success" := JBool true]})).


(** The error body of the specification's response contract. *)
Definition error_body : JSValue :=
  JObj (<["error" := JStr "Unsupported format"]>
        {["success" := JBool false]}).

Definition responded (status : N) (data : JSValue) : FetchOutcome :=
  Responded {| status := status; json := Parsed data |}.

(** The React page after [clip] was chosen. *)
Definition chosen : React.AppState :=
  React.apply_updates React.initial (React.handleFile clip).

(** The React page after [clip] was chosen, Analyze was clicked and the
    request was refused. *)
Definition refused : React.UI :=
  {| React.app :=
       React.apply_updates
         (React.apply_updates chosen
            [React.SetProcessing true; React.SetResult JNull;
             React.SetConfidence (JNum (Finite 0)); React.SetError JNull])
         (React.analyze_end timing (Rejected "Failed to fetch"));
     React.inflight := 0 |}.

(** The script's page after [clip] was chosen. *)
Definition script_chosen : Script.Page :=
  Script.handleFile (Some clip) Script.initial.

End Samples.

(** ** The rest of [App.jsx]: what the components render *)

(** [ToNumber], as [Math.round] applies it to its argument, for the
    values whose conversion involves no parsing; [None] stands for a
    string or an array, whose conversion is not modelled. *)
Definition ToNumber (v : JSValue) : option JSNum :=
  match v with
  | JUndefined => Some NaN
  | JNull => Some (Finite 0)
  | JBool true => Some (Finite 1)
  | JBool false => Some (Finite 0)
  | JNum n => Some n
  | JObj _ => Some NaN
  | JStr _ | JArr _ => None
  end.

(** [x.toFixed(2)]: two digits after the point, the nearer hundredth, a
    tie going away from zero (below 10^21 in magnitude). *)
Definition toFixed2_abs (q : Q) : string :=
  let n := Qfloor (q * 100 + (1 # 2)) in
  let cents := (n mod 100)%Z in
  pretty (n / 100)%Z +:+ "." +:+
  (if (cents <? 10)%Z then "0" else "") +:+ pretty cents.

Definition toFixed2 (n : JSNum) : string :=
  match n with
  | Finite q =>
      if Qneg q then "-" +:+ toFixed2_abs (- q) else toFixed2_abs q
  | other => Number_toString other
  end.

(** [v.toFixed(2)] as a method call: only numbers have the method. *)
Definition call_toFixed2 (v : JSValue) : Completion string :=
  match v with
  | JNum n => Normal (toFixed2 n)
  | JUndefined => Throw (TypeError_message "undefined" "toFixed")
  | JNull => Throw (TypeError_message "null" "toFixed")
  | _ => Throw "processingTime.toFixed is not a function"
  end.

(** [v?.key]. *)
Definition optional_prop (v : JSValue) (key : string) : JSValue :=
  match v with
  | JUndefined | JNull => JUndefined
  | _ => prop v key
  end.

Module Components.

Definition em_dash : string := "—".

(** [AudioPlayer]: nothing without a file, else the name shown beside
    the player. *)
Definition AudioPlayer (file : option File) : option string :=
  match file with
  | None => None
  | Some f => Some (name f)
  end.

(** [ResultCard] in full: the card of [React.ResultCard] with the icon of
    the badge, the processing time as printed, the sentence of the
    verdict and the circle drawn for the confidence ([None] when the
    conversion of the confidence is not modelled). Rendering throws when
    [processingTime] has no [toFixed]. *)
Record CardView := {
  card : React.Card;
  icon : string;
  time_text : string;
  verdict : string;
  circle : option React.Circle
}.

Definition ResultCard_view (result confidence processingTime : JSValue)
  : Completion (option CardView) :=
  match React.ResultCard result confidence processingTime with
  | None => Normal None
  | Some c =>
      match call_toFixed2 processingTime with
      | Throw message => Throw message
      | Normal seconds =>
          Normal
            (Some
               {| card := c;
                  icon := if React.fake c then "⚠️" else "✅";
                  time_text := seconds;
                  verdict :=
                    if React.fake c
                    then "This audio appears to be AI-generated (synthetic Tamil speech)."
                    else "This audio appears to be authentic human speech.";
                  circle :=
                    option_map
                      (fun n => React.CircularConfidence n (React.fake c))
                      (ToNumber confidence) |})
      end
  end.

(** [StatsCards]: the children of the three cells. *)
Record Stats := {
  duration_cell : list JSValue;
  sampleRate_cell : JSValue;
  size_cell : JSValue
}.

(** [Math.max(10, Math.round(file.size/1024)) + ' KB']. *)
Definition file_size_text (f : File) : string :=
  Number_toString
    (Math_max (Finite 10)
       (Math_round
          (js_div (Finite (inject_Z (Z.of_nat (size f)))) (Finite 1024))))
  +:+ " KB".

Definition StatsCards (file : option File) (audioInfo : JSValue) : Stats :=
  let duration := js_or (optional_prop audioInfo "duration") (JStr em_dash) in
  let sampleRate :=
    js_or (optional_prop audioInfo "sample_rate") (JStr em_dash) in
  let size :=
    if truthy (optional_prop audioInfo "file_size")
    then JStr (ToString (prop audioInfo "file_size") +:+ " KB")
    else
      match file with
      | Some f => JStr (file_size_text f)
      | None => JStr em_dash
      end in
  {| duration_cell :=
       [duration;
        if negb (strict_eq_str duration em_dash) then JStr "s"
        else JBool false];
     sampleRate_cell :=
       if negb (strict_eq_str sampleRate em_dash)
       then JStr (ToString sampleRate +:+ "Hz")
       else sampleRate;
     size_cell := size |}.

(** What stands below the card: [result && (charts and statistics)] is
    the fragment when [result] is truthy, else the falsy value itself. *)
Inductive Below :=
  | Charts (stats : Stats)
  | Rendered (v : JSValue).

(** What [App] renders from its state. *)
Record View := {
  player : option string;
  panel : option JSValue;
  button_disabled : bool;
  button_label : string;
  note : bool;
  result_card : Completion (option CardView);
  below : Below
}.

Definition App_view (st : React.AppState) : View :=
  {| player := AudioPlayer (React.file st);
     panel := React.ErrorPanel st;
     button_disabled := React.analyze_disabled st;
     button_label := if React.processing st then "Analyzing..." else "Analyze";
     note := React.processing st;
     result_card :=
       ResultCard_view (React.result st) (React.confidence st)
         (React.processingTime st);
     below :=
       if truthy (React.result st)
       then Charts (StatsCards (React.file st) (React.audioInfo st))
       else Rendered (React.result st) |}.

(** *** [ModelInfoCard]: the counter of the accuracy

    [i] is the counter of the effect, [acc] the state, [running] whether
    the interval is still set. *)
Record Counter := { i : nat; acc : Q; running : bool }.

Definition start : Counter := {| i := 0; acc := 0; running := true |}.

Definition target : Q := 945 # 10.

(** One firing of the interval: [i += 1], [setAcc(prev => Math.min(94.5,
    prev + 94.5/20))], and [clearInterval] once [i > 20]. A cleared
    interval fires no more. *)
Definition tick (c : Counter) : Counter :=
  if running c then
    let next := (acc c + target / 20)%Q in
    {| i := S (i c);
       acc := if Qle_bool target next then target else next;
       running := negb (20 <? S (i c))%nat |}
  else c.

(** The clean-up of the effect, on unmount. *)
Definition unmount (c : Counter) : Counter :=
  {| i := i c; acc := acc c; running := false |}.

(** [{acc.toFixed(1)}%]. *)
Definition accuracy_text (c : Counter) : string :=
  toFixed1 (Finite (acc c)) +:+ "%".

End Components.

(** ** The script's page as a transition system

    The listeners of the script: a file is picked or dropped
    ([handleFile], with no file when the picker is cancelled); the
    predict button, when not disabled, is clicked; a pending [fetch]
    settles. [sent] lists the requests sent so far, [pending] counts the
    clicks that wait for [fetch]. *)

Module ScriptUI.

Record UI := { page : Script.Page; sent : list Request; pending : nat }.

Inductive step : UI -> UI -> Prop :=
  | step_choose (u : UI) (file : option File) :
      step u
        {| page := Script.handleFile file (page u); sent := sent u;
           pending := pending u |}
  | step_click (u : UI) (p : Script.Page) (request : Request) :
      Script.predictDisabled (page u) = false ->
      Script.click_begin (page u) = Some (p, request) ->
      step u
        {| page := p; sent := sent u ++ [request];
           pending := S (pending u) |}
  | step_settle (u : UI) (outcome : FetchOutcome) (n : nat) :
      pending u = S n ->
      step u
        {| page := Script.click_end outcome (page u); sent := sent u;
           pending := n |}.

(** The script starts with [selectedFile = null]; the rest of the page
    is as the document has it. *)
Definition starts (u : UI) : Prop :=
  Script.selectedFile (page u) = None /\ sent u = [] /\ pending u = 0.

Definition reachable (u : UI) : Prop :=
  exists u0, starts u0 /\ rtc step u0 u.

(** The request uploads a file the extension check lets through. *)
Definition uploads_allowed (r : Request) : Prop :=
  exists f, r = Script.predict_request f /\
    Script.is_allowed (Script.extension f) = true.

Definition inv (u : UI) : Prop :=
  (forall f, Script.selectedFile (page u) = Some f ->
     Script.is_allowed (Script.extension f) = true) /\
  Forall uploads_allowed (sent u).

End ScriptUI.

(** More sample inputs. *)
Module Samples2.

Import Byte.

Definition song : File :=
  {| name := "Song.Final.WAV"; content := [x52; x49; x46; x46; x00] |}.

(** A success body with a confidence that is no whole number, and with
    the audio information of the documentation. *)
Definition full_body : JSValue :=
  JObj (<["prediction" := JStr "FAKE"]>
        (<["confidence" := JNum (Finite (923 # 10))]>
         (<["audio_info" :=
              JObj (<["duration" := JNum (Finite (234 # 100))]>
                    (<["sample_rate" := JNum (Finite 16000)]>
                     {["file_size" := JNum (Finite (4523 # 100))]}))]>
          (<["processing_time_seconds" := JNum (Finite (82 # 100))]>
           {["success" := JBool true]})))).

(** A success body without [prediction]. *)
Definition empty_success : JSValue := JObj {["success" := JBool true]}.



(** A reported failure whose message is empty. *)
Definition blank_error_body : JSValue :=
  JObj (<["error" := JStr ""]> {["success" := JBool false]}).

(** A success body whose time is a string. *)
Definition text_time_body : JSValue :=
  JObj (<["prediction" := JStr "REAL"]>
        (<["confidence" := JNum (Finite 90)]>
         (<["processing_time_seconds" := JStr "0.82"]>
          {["success" := JBool true]}))).

(** The script's page while the upload of [Samples.clip] is pending. *)
Definition script_waiting : ScriptUI.UI :=
  {| ScriptUI.page :=
       {| Script.selectedFile := Some Samples.clip; Script.statusMsg := None;
          Script.shown := None; Script.fileName := "clip.wav";
          Script.preview := Some Samples.clip;
          Script.predictDisabled := true; Script.spinner := true |};
     ScriptUI.sent := [Script.predict_request Samples.clip];
     ScriptUI.pending := 1 |}.

Definition script_start : ScriptUI.UI :=
  {| ScriptUI.page := Script.initial; ScriptUI.sent := [];
     ScriptUI.pending := 0 |}.

(** The React page while the analysis of [Samples.clip] is pending. *)
Definition waiting : React.UI :=
  {| React.app :=
       React.apply_updates Samples.chosen
         [React.SetProcessing true; React.SetResult JNull;
          React.SetConfidence (JNum (Finite 0)); React.SetError JNull];
     React.inflight := 1 |}.

End Samples2.

(** * Properties *)

(** ** JavaScript values *)

Lemma js_or_truthy (a b : JSValue) : truthy a = true -> js_or a b = a.
Proof. unfold js_or. intros ->. reflexivity. Qed.

Lemma js_or_falsy (a b : JSValue) : truthy a = false -> js_or a b = b.
Proof. unfold js_or. intros ->. reflexivity. Qed.

Lemma truthy_js_or (a b : JSValue) :
  truthy b = true -> truthy (js_or a b) = true.
Proof. unfold js_or. destruct (truthy a) eqn:Ha; auto. Qed.

Lemma truthy_JStr (s : string) : truthy (JStr s) = true <-> s <> "".
Proof.
  simpl. destruct (String.eqb_spec s "") as [E | E]; simpl; split;
    intros H; try discriminate; try reflexivity; try assumption.
  contradiction.
Qed.

Lemma js_or_message (m fallback : string) :
  m <> "" -> js_or (JStr m) (JStr fallback) = JStr m.
Proof. intros H. apply js_or_truthy. apply truthy_JStr. exact H. Qed.

(** A property read throws only on [null] and [undefined], whatever the
    property. *)
Lemma get_prop_Normal (v : JSValue) (k k' : string) (w : JSValue) :
  get_prop v k = Normal w -> exists w', get_prop v k' = Normal w'.
Proof. destruct v; simpl; intros H; try discriminate; eauto. Qed.

Lemma get_prop_Throw (v : JSValue) (k : string) (m : string) :
  get_prop v k = Throw m -> m <> "".
Proof.
  destruct v; simpl; intros H; try discriminate;
    injection H as <-; discriminate.
Qed.

Example Number_toString_int : Number_toString (Finite 400) = "400".
Proof. vm_compute. reflexivity. Qed.

Example Number_toString_dec : Number_toString (Finite (921 # 10)) = "92.1".
Proof. vm_compute. reflexivity. Qed.

Example Number_toString_neg : Number_toString (Finite (-5 # 4)) = "-1.25".
Proof. vm_compute. reflexivity. Qed.

Example toFixed1_rounds : toFixed1 (Finite (9787 # 100)) = "97.9".
Proof. vm_compute. reflexivity. Qed.

Example toFixed1_tie : toFixed1 (Finite (25 # 100)) = "0.3".
Proof. vm_compute. reflexivity. Qed.

Example ToString_array :
  ToString (JArr [JStr "a"; JNull; JNum (Finite 3)]) = "a,,3".
Proof. vm_compute. reflexivity. Qed.

(** ** The React client: what [analyze] does after [fetch] settles *)

Import React.

Lemma get_prop_prop (v : JSValue) (k k' : string) (w : JSValue) :
  get_prop v k = Normal w -> get_prop v k' = Normal (prop v k').
Proof.
  intros H. unfold prop.
  destruct (get_prop_Normal v k k' w H) as [w' ->]. reflexivity.
Qed.

(** The success branch: four setter calls, no throw. *)
Lemma try_block_success (t : Timing) (r : Response) (data s : JSValue) :
  ok r = true -> json r = Parsed data ->
  get_prop data "success" = Normal s -> truthy s = true ->
  try_block t (Responded r) =
    ([SetResult (prop data "prediction");
      SetConfidence (prop data "confidence");
      SetAudioInfo (prop data "audio_info");
      SetProcessingTime
        (js_or (prop data "processing_time_seconds")
           (JNum (Finite ((endTime t - startTime t) / 1000))))],
     Normal tt).
Proof.
  intros Hok Hjson Hs Ht.
  unfold try_block, await_json. rewrite Hok, Hjson. cbn [negb].
  unfold bind at 1. cbn [ret].
  unfold bind at 1. unfold lift. rewrite Hs, Ht.
  rewrite (get_prop_prop _ _ "prediction" _ Hs).
  rewrite (get_prop_prop _ _ "confidence" _ Hs).
  rewrite (get_prop_prop _ _ "audio_info" _ Hs).
  rewrite (get_prop_prop _ _ "processing_time_seconds" _ Hs).
  reflexivity.
Qed.

(** The server-reported failure: one call of [setError]. *)
Lemma try_block_reported (t : Timing) (r : Response) (data s : JSValue) :
  ok r = true -> json r = Parsed data ->
  get_prop data "success" = Normal s -> truthy s = false ->
  try_block t (Responded r) =
    ([SetError (js_or (prop data "error") (JStr "Prediction failed"))],
     Normal tt).
Proof.
  intros Hok Hjson Hs Ht.
  unfold try_block, await_json. rewrite Hok, Hjson. cbn [negb].
  unfold bind at 1. cbn [ret].
  unfold bind at 1. unfold lift. rewrite Hs, Ht.
  rewrite (get_prop_prop _ _ "error" _ Hs).
  reflexivity.
Qed.

(** A status outside 200-299 with a readable body: a throw whose message
    is the [error] member, or the generic text with the status. *)
Lemma try_block_status (t : Timing) (r : Response) (errData e : JSValue) :
  ok r = false -> json r = Parsed errData ->
  get_prop errData "error" = Normal e ->
  try_block t (Responded r) =
    ([], Throw (ToString
                  (js_or e (JStr ("API error: " +:+ pretty (status r)))))).
Proof.
  intros Hok Hjson He.
  unfold try_block, await_json. rewrite Hok, Hjson. cbn [negb].
  unfold bind at 1. cbn [ret].
  unfold bind at 1. unfold lift. rewrite He.
  reflexivity.
Qed.

Lemma try_block_unreadable (t : Timing) (r : Response) (m : string) :
  json r = NotJSON m -> try_block t (Responded r) = ([], Throw m).
Proof.
  intros Hjson. unfold try_block, await_json. rewrite Hjson.
  destruct (negb (ok r)); reflexivity.
Qed.

Lemma try_block_null (t : Timing) (r : Response) (data : JSValue)
    (m : string) :
  json r = Parsed data ->
  get_prop data (if ok r then "success" else "error") = Throw m ->
  try_block t (Responded r) = ([], Throw m).
Proof.
  intros Hjson Hm. unfold try_block, await_json. rewrite Hjson.
  destruct (ok r); cbn [negb]; unfold bind at 1; cbn [ret];
    unfold bind at 1; unfold lift; rewrite Hm; reflexivity.
Qed.

Lemma catch_clause_truthy (m : string) :
  exists e, truthy e = true /\ catch_clause m = [SetError e].
Proof.
  eexists. split; [| reflexivity].
  apply truthy_js_or. reflexivity.
Qed.

(** [analyze] ends in one of two ways: the four setter calls of a
    prediction, or a single call of [setError] with a truthy value; the
    last call is always [setProcessing(false)]. *)
Lemma analyze_end_cases (t : Timing) (o : FetchOutcome) :
  (failed o = false /\
   exists data,
     analyze_end t o =
       [SetResult (prop data "prediction");
        SetConfidence (prop data "confidence");
        SetAudioInfo (prop data "audio_info");
        SetProcessingTime
          (js_or (prop data "processing_time_seconds")
             (JNum (Finite ((endTime t - startTime t) / 1000))));
        SetProcessing false]) \/
  (failed o = true /\
   exists e, truthy e = true /\
     analyze_end t o = [SetError e; SetProcessing false]).
Proof.
  destruct o as [m | r].
  - right. split; [reflexivity |].
    destruct (catch_clause_truthy m) as (e & He & Hc).
    exists e. split; [exact He |].
    unfold analyze_end. cbn [try_block throw]. rewrite Hc. reflexivity.
  - unfold failed, analyze_end.
    destruct (json r) as [m | data] eqn:Hjson.
    + right. split; [apply orb_true_r |].
      rewrite (try_block_unreadable t r m Hjson).
      destruct (catch_clause_truthy m) as (e & He & Hc).
      exists e. rewrite Hc. auto.
    + destruct (ok r) eqn:Hok; cbn [negb orb].
      * destruct (get_prop data "success") as [s | m] eqn:Hs.
        -- destruct (truthy s) eqn:Ht; cbn [negb].
           ++ left. split; [reflexivity |]. exists data.
              rewrite (try_block_success t r data s Hok Hjson Hs Ht).
              reflexivity.
           ++ right. split; [reflexivity |].
              rewrite (try_block_reported t r data s Hok Hjson Hs Ht).
              eexists. split; [| reflexivity].
              apply truthy_js_or. reflexivity.
        -- right. split; [reflexivity |].
           rewrite (try_block_null t r data m Hjson)
             by (rewrite Hok; exact Hs).
           destruct (catch_clause_truthy m) as (e & He & Hc).
           exists e. rewrite Hc. auto.
      * right. split; [reflexivity |].
        destruct (get_prop data "error") as [e0 | m] eqn:He0.
        -- rewrite (try_block_status t r data e0 Hok Hjson He0).
           match goal with
           | |- context [catch_clause ?x] =>
               destruct (catch_clause_truthy x) as (e & He & Hc)
           end.
           exists e. rewrite Hc. auto.
        -- rewrite (try_block_null t r data m Hjson)
             by (rewrite Hok; exact He0).
           destruct (catch_clause_truthy m) as (e & He & Hc).
           exists e. rewrite Hc. auto.
Qed.

(** ** The page invariant *)

Lemma handleFiles_clears (st : AppState) (files : list File) :
  let st' := apply_updates st (handleFiles files) in
  processing st' = processing st /\
  (st' = st \/ (result st' = JNull /\ error st' = JNull)).
Proof.
  unfold handleFiles. destruct (head files) as [f |]; simpl; auto.
Qed.

Lemma analyze_disabled_false (st : AppState) :
  analyze_disabled st = false ->
  (exists f, file st = Some f) /\ processing st = false.
Proof.
  unfold analyze_disabled. destruct (file st) as [f |]; [eauto | discriminate].
Qed.

Lemma analyze_begin_Some (env : JSValue) (st : AppState)
    (us : list Update) (request : Request) :
  analyze_begin env st = Some (us, request) ->
  exists f, file st = Some f /\
    us = [SetProcessing true; SetResult JNull;
          SetConfidence (JNum (Finite 0)); SetError JNull] /\
    request = predict_request env f.
Proof.
  unfold analyze_begin. destruct (file st) as [f |]; [| discriminate].
  intros H. injection H as <- <-. eauto.
Qed.

Lemma step_preserves_inv (env : JSValue) (u u' : UI) :
  step env u u' -> ui_inv u -> ui_inv u'.
Proof.
  intros Hstep Hinv. destruct Hstep as [u files | u us request Hd Hb | u t o n Hn].
  - unfold ui_inv in *. cbn [inflight app].
    destruct (handleFiles_clears (app u) files) as (Hp & [-> | (Hr & He)]);
      [exact Hinv |].
    destruct (inflight u) as [| [| k]]; [| | contradiction].
    + rewrite Hp. destruct Hinv as (Hq & _). split; [exact Hq |].
      left. exact Hr.
    + rewrite Hp. destruct Hinv as (Hq & _). auto.
  - destruct (analyze_disabled_false _ Hd) as (_ & Hp).
    destruct (analyze_begin_Some _ _ _ _ Hb) as (f & Hf & -> & _).
    unfold ui_inv in *. cbn [inflight app].
    destruct (inflight u) as [| [| k]]; [| | contradiction].
    + simpl. auto.
    + destruct Hinv as (Hq & _). congruence.
  - unfold ui_inv in *. cbn [inflight app]. rewrite Hn in Hinv.
    destruct n as [| k]; [| contradiction].
    destruct Hinv as (_ & Hr & He).
    destruct (analyze_end_cases t o) as [(_ & data & ->) | (_ & e & _ & ->)];
      unfold exclusive; simpl; split; auto.
Qed.

Lemma reachable_inv (env : JSValue) (u : UI) : reachable env u -> ui_inv u.
Proof.
  unfold reachable. revert u. apply rtc_ind_r.
  - simpl. split; [reflexivity | left; reflexivity].
  - intros y z _ Hstep IH. eapply step_preserves_inv; eassumption.
Qed.

Lemma ui_inv_exclusive (u : UI) : ui_inv u -> exclusive (app u).
Proof.
  unfold ui_inv. destruct (inflight u) as [| [| k]].
  - intros (_ & H). exact H.
  - intros (_ & H & _). left. exact H.
  - contradiction.
Qed.

(** ** C8 *)

Lemma analyze_end_counts (t : Timing) (o : FetchOutcome) :
  let us := analyze_end t o in
  (count_SetResult us = 1 /\ count_SetError us = 0 /\ failed o = false) \/
  (count_SetResult us = 0 /\ count_SetError us = 1 /\ failed o = true).
Proof.
  destruct (analyze_end_cases t o) as [(Hf & data & ->) | (Hf & e & _ & ->)];
    [left | right]; repeat split; try reflexivity; exact Hf.
Qed.

Lemma analyze_end_processing (t : Timing) (o : FetchOutcome) (st : AppState) :
  processing (apply_updates st (analyze_end t o)) = false.
Proof.
  destruct (analyze_end_cases t o) as [(_ & data & ->) | (_ & e & _ & ->)];
    reflexivity.
Qed.

(** What one whole call of [analyze] leaves: [processing] is false; after
    a prediction [error] is null and [result] is the body's [prediction];
    after a failure [result] is null and [error] is truthy. *)
Lemma analyze_final (env : JSValue) (t : Timing) (o : FetchOutcome)
    (st : AppState) (f : File) :
  file st = Some f ->
  let fin := fst (analyze env t o st) in
  processing fin = false /\
  (failed o = false -> error fin = JNull) /\
  (failed o = true -> result fin = JNull /\ truthy (error fin) = true).
Proof.
  intros Hf. unfold analyze, analyze_begin. rewrite Hf. cbn [fst].
  destruct (analyze_end_cases t o) as [(Hk & data & ->) | (Hk & e & He & ->)];
    rewrite Hk; simpl; repeat split; intros; try discriminate; auto.
Qed.

(** C8. On every reachable page at most one of [result] and [error] is
    non-null. Choosing a file and starting an analysis both reset
    [result], [confidence] and [error]; from the settling of [fetch]
    [analyze] calls exactly one of [setResult] and [setError] ([setResult]
    exactly when the attempt did not fail), and on every path (prediction,
    reported failure, thrown error) it leaves [processing] false. *)
Theorem C8_result_error_exclusive (env : JSValue) (u : UI) :
  reachable env u ->
  exclusive (app u) /\
  (forall f, let st := apply_updates (app u) (handleFile f) in
     result st = JNull /\ confidence st = JNum (Finite 0) /\
     error st = JNull) /\
  (forall us request, analyze_begin env (app u) = Some (us, request) ->
     let st := apply_updates (app u) us in
     result st = JNull /\ confidence st = JNum (Finite 0) /\
     error st = JNull /\ processing st = true) /\
  (forall t o, let us := analyze_end t o in
     ((count_SetResult us = 1 /\ count_SetError us = 0 /\ failed o = false) \/
      (count_SetResult us = 0 /\ count_SetError us = 1 /\ failed o = true)) /\
     processing (apply_updates (app u) us) = false) /\
  (forall t o f, file (app u) = Some f ->
     let fin := fst (analyze env t o (app u)) in
     processing fin = false /\ exclusive fin /\
     (failed o = false -> error fin = JNull) /\
     (failed o = true -> result fin = JNull /\ truthy (error fin) = true)).
Proof.
  intros Hreach. repeat split.
  - apply ui_inv_exclusive. eapply reachable_inv. exact Hreach.
  - destruct (analyze_begin_Some _ _ _ _ H) as (f & _ & -> & _). reflexivity.
  - destruct (analyze_begin_Some _ _ _ _ H) as (f & _ & -> & _). reflexivity.
  - destruct (analyze_begin_Some _ _ _ _ H) as (f & _ & -> & _). reflexivity.
  - destruct (analyze_begin_Some _ _ _ _ H) as (f & _ & -> & _). reflexivity.
  - apply analyze_end_counts.
  - apply analyze_end_processing.
  - apply (analyze_final env t o (app u) f H).
  - destruct (analyze_final env t o (app u) f H) as (_ & Hok & Hko).
    destruct (failed o); [left; apply Hko | right; apply Hok]; reflexivity.
  - apply (analyze_final env t o (app u) f H).
  - apply (analyze_final env t o (app u) f H). assumption.
  - apply (analyze_final env t o (app u) f H). assumption.
Qed.

Lemma refused_reachable : reachable JUndefined Samples.refused.
Proof.
  unfold reachable.
  eapply rtc_l; [apply (step_select _ initial_ui [Samples.clip]) |].
  eapply rtc_l; [eapply step_click; reflexivity |].
  eapply rtc_l;
    [eapply (step_settle _ _ Samples.timing (Rejected "Failed to fetch") 0);
     reflexivity |].
  apply rtc_refl.
Defined.

Lemma C8_witness :
  exclusive (app Samples.refused) /\
  (forall f, let st := apply_updates (app Samples.refused) (handleFile f) in
     result st = JNull /\ confidence st = JNum (Finite 0) /\
     error st = JNull) /\
  (forall us request,
     analyze_begin JUndefined (app Samples.refused) = Some (us, request) ->
     let st := apply_updates (app Samples.refused) us in
     result st = JNull /\ confidence st = JNum (Finite 0) /\
     error st = JNull /\ processing st = true) /\
  (forall t o, let us := analyze_end t o in
     ((count_SetResult us = 1 /\ count_SetError us = 0 /\ failed o = false) \/
      (count_SetResult us = 0 /\ count_SetError us = 1 /\ failed o = true)) /\
     processing (apply_updates (app Samples.refused) us) = false) /\
  (forall t o f, file (app Samples.refused) = Some f ->
     let fin := fst (analyze JUndefined t o (app Samples.refused)) in
     processing fin = false /\ exclusive fin /\
     (failed o = false -> error fin = JNull) /\
     (failed o = true -> result fin = JNull /\ truthy (error fin) = true)).
Proof.
  exact (C8_result_error_exclusive JUndefined Samples.refused
           refused_reachable).
Defined.

(** ** C4: failed attempts *)

Lemma prop_JStr (v : JSValue) (k m : string) :
  prop v k = JStr m -> get_prop v k = Normal (JStr m).
Proof.
  unfold prop. destruct (get_prop v k) as [w | m']; [| discriminate].
  intros ->. reflexivity.
Qed.

Lemma catch_clause_message (m : string) :
  m <> "" -> catch_clause m = [SetError (JStr m)].
Proof. intros H. unfold catch_clause. rewrite js_or_message by exact H. reflexivity. Qed.

(** A failed attempt that carries a message ends in [setError] called
    with exactly that message. *)
Lemma analyze_end_message (t : Timing) (o : FetchOutcome) (m : string) :
  failed o = true -> error_message o = Some m -> m <> "" ->
  analyze_end t o = [SetError (JStr m); SetProcessing false].
Proof.
  intros Hfail Hmsg Hm. unfold analyze_end.
  destruct o as [m0 | r].
  - injection Hmsg as ->. cbn [try_block throw].
    rewrite catch_clause_message by exact Hm. reflexivity.
  - unfold error_message in Hmsg. unfold failed in Hfail.
    destruct (json r) as [m0 | data] eqn:Hjson.
    + injection Hmsg as ->.
      rewrite (try_block_unreadable t r m Hjson).
      rewrite catch_clause_message by exact Hm. reflexivity.
    + destruct (prop data "error") as [| | | | m0 | |] eqn:Hp;
        try discriminate.
      injection Hmsg as ->. apply prop_JStr in Hp.
      destruct (ok r) eqn:Hok; cbn [negb orb] in Hfail.
      * destruct (get_prop_Normal _ _ "success" _ Hp) as (s & Hs).
        rewrite Hs in Hfail.
        destruct (truthy s) eqn:Ht; [discriminate |].
        rewrite (try_block_reported t r data s Hok Hjson Hs Ht).
        unfold prop. rewrite Hp. rewrite js_or_message by exact Hm.
        reflexivity.
      * rewrite (try_block_status t r data (JStr m) Hok Hjson Hp).
        rewrite js_or_message by exact Hm. cbn [ToString].
        rewrite catch_clause_message by exact Hm. reflexivity.
Qed.

(** The panel has no control of its own: a step of the page that makes
    it go away is the choice of a file, which resets the page for that
    file, or a click on Analyze, which sends a new request. *)
Lemma panel_only_replaced (env : JSValue) (st : AppState) (u' : UI) :
  ErrorPanel st <> None ->
  step env {| app := st; inflight := 0 |} u' ->
  ErrorPanel (app u') = None ->
  (exists g, app u' = apply_updates st (handleFile g)) \/
  (exists us request,
     analyze_begin env st = Some (us, request) /\
     app u' = apply_updates st us /\ inflight u' = 1%nat).
Proof.
  intros Hshown Hstep Hgone.
  inversion Hstep as [u files Hu Hu' | u us request Hd Hb Hu Hu'
                     | u t o n Hn Hu Hu']; subst u; subst u';
    cbn [app inflight] in *.
  - unfold handleFiles in *. destruct (head files) as [g |].
    + left. exists g. reflexivity.
    + contradiction.
  - right. exists us, request. auto.
  - discriminate.
Qed.

(** The fall-back texts of a failure without a message. *)
Lemma analyze_end_blank (t : Timing) :
  analyze_end t (Rejected "") =
    [SetError (JStr "Failed to connect to API. Make sure the backend is running on port 5000.");
     SetProcessing false].
Proof. reflexivity. Qed.

(** C4, as the code has it. When an attempt fails, the error panel is
    rendered with the stored error as its text: the message of the
    thrown error, or the string in the body's [error] member, unchanged
    whenever that message is not empty, and a fixed text of the client
    when the message is empty or missing. [analyze] has sent one request
    and sends no other. The panel has no control to dismiss it: it goes
    away when the next file is chosen or the next analysis starts, and
    by no other step of the page. *)
Theorem C4_error_verbatim_no_retry (env : JSValue) (t : Timing)
    (o : FetchOutcome) (st : AppState) (f : File) :
  file st = Some f -> failed o = true ->
  let fin := fst (analyze env t o st) in
  ErrorPanel fin = Some (error fin) /\
  (forall m, error_message o = Some m -> m <> "" ->
     ErrorPanel fin = Some (JStr m)) /\
  (o = Rejected "" ->
   ErrorPanel fin =
     Some (JStr "Failed to connect to API. Make sure the backend is running on port 5000.")) /\
  (forall r data s, o = Responded r -> ok r = true ->
     json r = Parsed data -> get_prop data "success" = Normal s ->
     truthy (prop data "error") = false ->
     ErrorPanel fin = Some (JStr "Prediction failed")) /\
  snd (analyze env t o st) = [predict_request env f] /\
  (forall g, ErrorPanel (apply_updates fin (handleFile g)) = None) /\
  (forall us request, analyze_begin env fin = Some (us, request) ->
     ErrorPanel (apply_updates fin us) = None) /\
  (forall u', step env {| app := fin; inflight := 0 |} u' ->
     ErrorPanel (app u') = None ->
     (exists g, app u' = apply_updates fin (handleFile g)) \/
     (exists us request,
        analyze_begin env fin = Some (us, request) /\
        app u' = apply_updates fin us /\ inflight u' = 1%nat)).
Proof.
  intros Hf Hfail fin.
  destruct (analyze_final env t o st f Hf) as (_ & _ & Hko).
  destruct (Hko Hfail) as (_ & Herr). fold fin in Herr.
  assert (Hpanel : ErrorPanel fin = Some (error fin))
    by (unfold ErrorPanel; rewrite Herr; reflexivity).
  split; [exact Hpanel |].
  split.
  { intros m Hmsg Hm. subst fin.
    unfold analyze, analyze_begin. rewrite Hf. cbn [fst].
    rewrite (analyze_end_message t o m Hfail Hmsg Hm).
    unfold ErrorPanel. simpl.
    apply truthy_JStr in Hm. simpl in Hm. rewrite Hm. reflexivity. }
  split.
  { intros ->. subst fin. unfold analyze, analyze_begin. rewrite Hf.
    cbn [fst]. rewrite analyze_end_blank. reflexivity. }
  split.
  { intros r data s -> Hok Hjson Hs Hblank. subst fin.
    unfold failed in Hfail. rewrite Hok, Hjson, Hs in Hfail.
    cbn [negb orb] in Hfail. apply negb_true_iff in Hfail.
    unfold analyze, analyze_begin, analyze_end. rewrite Hf. cbn [fst].
    rewrite (try_block_reported t r data s Hok Hjson Hs Hfail).
    rewrite (js_or_falsy _ _ Hblank). reflexivity. }
  split.
  { unfold analyze, analyze_begin. rewrite Hf. reflexivity. }
  split; [intros g; reflexivity |].
  split.
  { intros us request Hb.
    destruct (analyze_begin_Some _ _ _ _ Hb) as (g & _ & -> & _).
    reflexivity. }
  intros u' Hstep Hgone.
  apply (panel_only_replaced env fin u'); [| exact Hstep | exact Hgone].
  rewrite Hpanel. discriminate.
Qed.

Lemma C4_witness :
  let fin :=
    fst (analyze JUndefined Samples.timing
           (Samples.responded 400 Samples.error_body) Samples.chosen) in
  ErrorPanel fin = Some (JStr "Unsupported format") /\
  snd (analyze JUndefined Samples.timing
         (Samples.responded 400 Samples.error_body) Samples.chosen) =
    [predict_request JUndefined Samples.clip].
Proof.
  pose proof (C4_error_verbatim_no_retry JUndefined Samples.timing
                (Samples.responded 400 Samples.error_body) Samples.chosen
                Samples.clip eq_refl eq_refl) as (_ & Hm & _ & _ & Hr & _).
  split; [| exact Hr].
  apply Hm; [reflexivity | discriminate].
Defined.

(** The claim as written fails. The panel that shows [Failed to fetch]
    cannot be dismissed: every step of the page that makes it go away
    chooses a file or sends a new request. And a reported failure whose
    message is the empty string is shown as [Prediction failed]. *)
Lemma C4_counterexample :
  ErrorPanel (app Samples.refused) = Some (JStr "Failed to fetch") /\
  (forall u', step JUndefined Samples.refused u' ->
     ErrorPanel (app u') = None ->
     (exists g,
        app u' = apply_updates (app Samples.refused) (handleFile g)) \/
     (exists us request,
        analyze_begin JUndefined (app Samples.refused) =
          Some (us, request) /\
        app u' = apply_updates (app Samples.refused) us /\
        inflight u' = 1%nat)) /\
  error_message (Samples.responded 200 Samples2.blank_error_body) =
    Some "" /\
  ErrorPanel
    (fst (analyze JUndefined Samples.timing
            (Samples.responded 200 Samples2.blank_error_body)
            Samples.chosen)) =
    Some (JStr "Prediction failed").
Proof.
  split; [reflexivity |]. split; [| split; reflexivity].
  intros u' Hstep Hgone.
  apply (panel_only_replaced JUndefined (app Samples.refused) u');
    [discriminate | exact Hstep | exact Hgone].
Qed.

(** ** C10: the processing time *)

(** C10. On a success response the stored processing time is the
    locally measured [(endTime - startTime) / 1000] when the body's
    [processing_time_seconds] is absent, null or zero, and the server's
    value whenever that value is truthy. *)
Theorem C10_processing_time (env : JSValue) (t : Timing) (st : AppState)
    (f : File) (r : Response) (data s : JSValue) :
  file st = Some f -> ok r = true -> json r = Parsed data ->
  get_prop data "success" = Normal s -> truthy s = true ->
  let seconds := prop data "processing_time_seconds" in
  let fin := fst (analyze env t (Responded r) st) in
  ((seconds = JUndefined \/ seconds = JNull \/
    (exists q, seconds = JNum (Finite q) /\ q == 0)) ->
   processingTime fin =
     JNum (Finite ((endTime t - startTime t) / 1000))) /\
  (truthy seconds = true -> processingTime fin = seconds).
Proof.
  intros Hf Hok Hjson Hs Ht seconds fin.
  assert (Hfin : processingTime fin =
                 js_or seconds
                   (JNum (Finite ((endTime t - startTime t) / 1000)))).
  { subst fin. unfold analyze, analyze_begin, analyze_end. rewrite Hf.
    rewrite (try_block_success t r data s Hok Hjson Hs Ht). reflexivity. }
  split.
  - intros Hfalsy. rewrite Hfin. apply js_or_falsy.
    destruct Hfalsy as [-> | [-> | (q & -> & Hq)]]; try reflexivity.
    simpl. unfold Qzero. apply Qeq_bool_iff in Hq. rewrite Hq. reflexivity.
  - intros Htruthy. rewrite Hfin. apply js_or_truthy. exact Htruthy.
Qed.

Lemma C10_witness :
  processingTime
    (fst (analyze JUndefined Samples.timing
            (Samples.responded 200 Samples.untimed_body) Samples.chosen)) =
    JNum (Finite ((1820 - 1000) / 1000)) /\
  processingTime
    (fst (analyze JUndefined Samples.timing
            (Samples.responded 200 Samples.prediction_body) Samples.chosen)) =
    JNum (Finite (82 # 100)).
Proof.
  split.
  - apply (C10_processing_time JUndefined Samples.timing Samples.chosen
             Samples.clip
             {| status := 200; json := Parsed Samples.untimed_body |}
             Samples.untimed_body (JBool true)
             eq_refl eq_refl eq_refl eq_refl eq_refl).
    left. reflexivity.
  - apply (C10_processing_time JUndefined Samples.timing Samples.chosen
             Samples.clip
             {| status := 200; json := Parsed Samples.prediction_body |}
             Samples.prediction_body (JBool true)
             eq_refl eq_refl eq_refl eq_refl eq_refl).
    reflexivity.
Defined.

(** ** C6: the request *)

Lemma API_BASE_URL_default :
  API_BASE_URL JUndefined = JStr "http://localhost:5000".
Proof. reflexivity. Qed.

(** C6. Each analysis of a selected file sends exactly one request: a
    POST to the prediction endpoint ([/api/predict] under the configured
    base for the React client, [/predict] for the script) whose form body
    has the single field [file], holding the selected file. *)
Theorem C6_one_post_request (env : JSValue) (t : Timing) (o : FetchOutcome)
    (st : AppState) (p : Script.Page) (f : File) :
  file st = Some f -> Script.selectedFile p = Some f ->
  (exists r, snd (analyze env t o st) = [r] /\
     method r = "POST" /\
     url r = ToString (API_BASE_URL env) +:+ "/api/predict" /\
     body r = [("file", f)]) /\
  (exists r, snd (Script.click o p) = [r] /\
     method r = "POST" /\
     url r = "http://127.0.0.1:8000/predict" /\
     body r = [("file", f)]).
Proof.
  intros Hf Hp. split.
  - exists (predict_request env f). unfold analyze, analyze_begin.
    rewrite Hf. repeat split.
  - exists (Script.predict_request f). unfold Script.click, Script.click_begin.
    rewrite Hp. repeat split.
Qed.

Lemma C6_witness :
  (exists r,
     snd (analyze JUndefined Samples.timing (Rejected "Failed to fetch")
            Samples.chosen) = [r] /\
     method r = "POST" /\
     url r = "http://localhost:5000/api/predict" /\
     body r = [("file", Samples.clip)]) /\
  (exists r,
     snd (Script.click (Rejected "Failed to fetch") Samples.script_chosen) =
       [r] /\
     method r = "POST" /\
     url r = "http://127.0.0.1:8000/predict" /\
     body r = [("file", Samples.clip)]).
Proof.
  exact (C6_one_post_request JUndefined Samples.timing
           (Rejected "Failed to fetch") Samples.chosen Samples.script_chosen
           Samples.clip eq_refl eq_refl).
Defined.

(** ** C9: the circular indicator *)

Lemma Qle_bool_inject_Z (a b : Z) :
  Qle_bool (inject_Z a) (inject_Z b) = (a <=? b)%Z.
Proof. unfold Qle_bool, inject_Z. simpl. rewrite !Z.mul_1_r. reflexivity. Qed.

Lemma Math_min_inject_Z (a b : Z) :
  Math_min (Finite (inject_Z a)) (Finite (inject_Z b)) =
    Finite (inject_Z (Z.min a b)).
Proof.
  unfold Math_min. rewrite Qle_bool_inject_Z.
  destruct (Z.leb_spec a b); f_equal; f_equal; lia.
Qed.

Lemma Math_max_inject_Z (a b : Z) :
  Math_max (Finite (inject_Z a)) (Finite (inject_Z b)) =
    Finite (inject_Z (Z.max a b)).
Proof.
  unfold Math_max. rewrite Qle_bool_inject_Z.
  destruct (Z.leb_spec b a); f_equal; f_equal; lia.
Qed.

Lemma normalized_clamped (value : JSNum) :
  is_NaN value = false ->
  Math_max (Finite 0) (Math_min (Finite 100) (Math_round value)) =
    Finite (inject_Z (clamped_round value)).
Proof.
  destruct value as [q | | |]; intros H; try discriminate; try reflexivity.
  unfold Math_round, clamped_round.
  change (Finite 100) with (Finite (inject_Z 100)).
  change (Finite 0) with (Finite (inject_Z 0)).
  rewrite Math_min_inject_Z, Math_max_inject_Z. reflexivity.
Qed.

Lemma clamped_round_bounds (value : JSNum) :
  (0 <= clamped_round value <= 100)%Z.
Proof. destruct value; simpl; lia. Qed.

Lemma circumference_pos : (0 < circumference)%Q.
Proof. reflexivity. Qed.

Lemma arc_within (z : Z) :
  (0 <= z <= 100)%Z ->
  (0 <= circumference * (inject_Z z / 100) <= circumference)%Q.
Proof.
  intros [H0 H100].
  assert (Hz0 : (0 <= inject_Z z / 100)%Q).
  { apply Qle_shift_div_l; [reflexivity |].
    rewrite Qmult_0_l. change 0%Q with (inject_Z 0).
    rewrite <- Zle_Qle. exact H0. }
  assert (Hz1 : (inject_Z z / 100 <= 1)%Q).
  { apply Qle_shift_div_r; [reflexivity |].
    rewrite Qmult_1_l. change 100%Q with (inject_Z 100).
    rewrite <- Zle_Qle. exact H100. }
  split.
  - apply Qmult_le_0_compat; [apply Qlt_le_weak, circumference_pos | exact Hz0].
  - rewrite <- (Qmult_1_r circumference) at 2.
    apply Qmult_le_l; [apply circumference_pos | exact Hz1].
Qed.

(** C9. For every number other than NaN, [CircularConfidence] prints
    [round(value)] clamped to the interval from 0 to 100, and the dash of
    its progress arc is that percentage divided by 100 of the
    circumference (the rest of the circle being the gap): what is shown
    is never below 0% nor above 100%, whatever the value passed in. *)
Theorem C9_circular_confidence_clamped (value : JSNum) (fake : bool) :
  is_NaN value = false ->
  let z := clamped_round value in
  let circle := CircularConfidence value fake in
  percent circle = Finite (inject_Z z) /\
  (0 <= z <= 100)%Z /\
  dash circle = Finite (circumference * (inject_Z z / 100)) /\
  gap circle =
    Finite (circumference - circumference * (inject_Z z / 100)) /\
  (0 <= circumference * (inject_Z z / 100) <= circumference)%Q.
Proof.
  intros Hnan z circle.
  pose proof (normalized_clamped value Hnan) as Hn. fold z in Hn.
  pose proof (clamped_round_bounds value) as Hb. fold z in Hb.
  subst circle. unfold CircularConfidence. rewrite Hn.
  cbn [percent dash gap].
  repeat split; try apply Hb; try apply (arc_within z Hb).
Qed.

Lemma C9_witness :
  percent (CircularConfidence (Finite (1234 # 10)) true) = Finite 100 /\
  percent (CircularConfidence (Finite (-3)) false) = Finite 0 /\
  percent (CircularConfidence (Finite (925 # 10)) false) = Finite 93 /\
  percent (CircularConfidence PosInf true) = Finite 100.
Proof.
  split; [| split; [| split]].
  - apply (C9_circular_confidence_clamped (Finite (1234 # 10)) true eq_refl).
  - apply (C9_circular_confidence_clamped (Finite (-3)) false eq_refl).
  - apply (C9_circular_confidence_clamped (Finite (925 # 10)) false eq_refl).
  - apply (C9_circular_confidence_clamped PosInf true eq_refl).
Defined.

(** For NaN, which no JSON body can carry, the component prints NaN. *)
Lemma CircularConfidence_NaN (fake : bool) :
  percent (CircularConfidence NaN fake) = NaN.
Proof. reflexivity. Qed.

(** ** C1: the score interpreter *)

Lemma ResultInterpreter_cases (s : Q) :
  (((1 # 2) < s)%Q /\
   Service.ResultInterpreter s =
     {| Service.label := Service.FAKE;
        Service.confidencePercent := (s * 100)%Q |}) \/
  ((s <= 1 # 2)%Q /\
   Service.ResultInterpreter s =
     {| Service.label := Service.REAL;
        Service.confidencePercent := ((1 - s) * 100)%Q |}).
Proof.
  unfold Service.ResultInterpreter.
  destruct (Qle_bool s (1 # 2)) eqn:E; cbn [negb].
  - right. split; [apply Qle_bool_iff; exact E | reflexivity].
  - left. split; [| reflexivity].
    apply Qnot_le_lt. intros H. apply Qle_bool_iff in H. congruence.
Qed.

(** C1. For every score in [0, 1] the interpreter answers FAKE exactly
    when the score exceeds 0.5 and REAL otherwise (0.5 itself is REAL);
    the confidence is [score * 100] for FAKE and [(1 - score) * 100] for
    REAL, a percentage between 0 and 100. *)
Theorem C1_score_interpretation (s : Q) :
  (0 <= s <= 1)%Q ->
  let r := Service.ResultInterpreter s in
  (Service.label r = Service.FAKE <-> ((1 # 2) < s)%Q) /\
  (Service.label r = Service.REAL <-> (s <= 1 # 2)%Q) /\
  (Service.label r = Service.FAKE ->
   Service.confidencePercent r = (s * 100)%Q) /\
  (Service.label r = Service.REAL ->
   Service.confidencePercent r = ((1 - s) * 100)%Q) /\
  Service.label (Service.ResultInterpreter (1 # 2)) = Service.REAL /\
  (0 <= Service.confidencePercent r <= 100)%Q.
Proof.
  intros [H0 H1] r. subst r.
  destruct (ResultInterpreter_cases s) as [(Hs & ->) | (Hs & ->)];
    cbn [Service.label Service.confidencePercent].
  - split; [split; [intros _; exact Hs | reflexivity] |].
    split; [split; [discriminate | intros H; exfalso; eapply Qlt_not_le; eassumption] |].
    split; [reflexivity |].
    split; [discriminate |].
    split; [reflexivity |].
    lra.
  - split; [split; [discriminate | intros H; exfalso; eapply Qlt_not_le; eassumption] |].
    split; [split; [intros _; exact Hs | reflexivity] |].
    split; [discriminate |].
    split; [reflexivity |].
    split; [reflexivity |].
    lra.
Qed.

Lemma C1_witness :
  Service.label (Service.ResultInterpreter (547 # 10000)) = Service.REAL /\
  Service.confidencePercent (Service.ResultInterpreter (547 # 10000)) =
    ((1 - (547 # 10000)) * 100)%Q /\
  Service.label (Service.ResultInterpreter (921 # 1000)) = Service.FAKE /\
  Service.confidencePercent (Service.ResultInterpreter (921 # 1000)) =
    ((921 # 1000) * 100)%Q.
Proof.
  assert (Hlow : (0 <= 547 # 10000 <= 1)%Q) by (split; discriminate).
  assert (Hhigh : (0 <= 921 # 1000 <= 1)%Q) by (split; discriminate).
  destruct (C1_score_interpretation (547 # 10000) Hlow)
    as (_ & Hreal & _ & Hconf & _).
  destruct (C1_score_interpretation (921 # 1000) Hhigh)
    as (Hfake & _ & Hconf' & _).
  assert (L : Service.label (Service.ResultInterpreter (547 # 10000)) =
              Service.REAL) by (apply Hreal; discriminate).
  assert (L' : Service.label (Service.ResultInterpreter (921 # 1000)) =
               Service.FAKE) by (apply Hfake; reflexivity).
  split; [exact L |]. split; [exact (Hconf L) |].
  split; [exact L' | exact (Hconf' L')].
Defined.

(** The two scenarios of the specification: 0.0547 is REAL at 94.53%, and
    0.921 is FAKE at 92.1%. *)
Example ResultInterpreter_scenarios :
  (Service.confidencePercent (Service.ResultInterpreter (547 # 10000)) ==
     9453 # 100)%Q /\
  (Service.confidencePercent (Service.ResultInterpreter (921 # 1000)) ==
     921 # 10)%Q.
Proof. split; reflexivity. Qed.

(** ** C7: the size limit *)

(** C7. Whatever the limit is fixed to (30 MB in the documented
    deployment), an upload of exactly that many bytes passes the size
    gate and enters the decoder, and an upload one byte larger is answered
    with [PayloadTooLargeError] without any stage having been entered. *)
Theorem C7_size_boundary (max_size : N) (AudioBuffer FeatureTensor : Type)
    (AudioDecoder : Service.Upload -> Service.ServiceError + AudioBuffer)
    (SignalConditioner : AudioBuffer -> AudioBuffer)
    (FeatureExtractor : AudioBuffer -> Service.ServiceError + FeatureTensor)
    (infer : FeatureTensor -> Service.ServiceError + Q)
    (u u' : Service.Upload) :
  Service.upload_size u = max_size ->
  Service.upload_size u' = (max_size + 1)%N ->
  (exists stages answer,
     Service.PredictionService max_size AudioBuffer FeatureTensor
       AudioDecoder SignalConditioner FeatureExtractor infer u =
       (Service.Decode :: stages, answer)) /\
  Service.PredictionService max_size AudioBuffer FeatureTensor
    AudioDecoder SignalConditioner FeatureExtractor infer u' =
    ([], inl Service.PayloadTooLargeError).
Proof.
  intros Hu Hu'. unfold Service.PredictionService. split.
  - replace (max_size <? Service.upload_size u)%N with false
      by (symmetry; apply N.ltb_ge; lia).
    destruct (AudioDecoder u) as [e | audio]; [eauto |].
    destruct (FeatureExtractor (SignalConditioner audio)) as [e | features];
      [eauto |].
    destruct (infer features) as [e | score]; eauto.
  - replace (max_size <? Service.upload_size u')%N with true
      by (symmetry; apply N.ltb_lt; lia).
    reflexivity.
Qed.

Lemma C7_witness :
  (exists stages answer,
     Service.PredictionService 4 unit unit
       (fun _ => inr tt) (fun a => a) (fun _ => inr tt)
       (fun _ => inr (547 # 10000))
       {| Service.filename := "clip.wav";
          Service.bytes := content Samples.clip |} =
       (Service.Decode :: stages, answer)) /\
  Service.PredictionService 4 unit unit
    (fun _ => inr tt) (fun a => a) (fun _ => inr tt)
    (fun _ => inr (547 # 10000))
    {| Service.filename := "clip.wav";
       Service.bytes := Byte.x00 :: content Samples.clip |} =
    ([], inl Service.PayloadTooLargeError).
Proof.
  exact (C7_size_boundary 4 unit unit
           (fun _ => inr tt) (fun a => a) (fun _ => inr tt)
           (fun _ => inr (547 # 10000))
           {| Service.filename := "clip.wav";
              Service.bytes := content Samples.clip |}
           {| Service.filename := "clip.wav";
              Service.bytes := Byte.x00 :: content Samples.clip |}
           eq_refl eq_refl).
Defined.

(** The same at the documented limit of 30 MB. *)
Lemma size_boundary_30MB (AudioBuffer FeatureTensor : Type)
    (AudioDecoder : Service.Upload -> Service.ServiceError + AudioBuffer)
    (SignalConditioner : AudioBuffer -> AudioBuffer)
    (FeatureExtractor : AudioBuffer -> Service.ServiceError + FeatureTensor)
    (infer : FeatureTensor -> Service.ServiceError + Q)
    (u : Service.Upload) :
  Service.upload_size u = (Service.MAX_UPLOAD_BYTES + 1)%N ->
  Service.PredictionService Service.MAX_UPLOAD_BYTES AudioBuffer FeatureTensor
    AudioDecoder SignalConditioner FeatureExtractor infer u =
    ([], inl Service.PayloadTooLargeError).
Proof.
  intros Hu. unfold Service.PredictionService.
  replace (Service.MAX_UPLOAD_BYTES <? Service.upload_size u)%N with true
    by (symmetry; apply N.ltb_lt; lia).
  reflexivity.
Qed.

(** The React client itself sets no limit: [FileUploader] hands on the
    first file of a selection whatever its size, and [analyze] sends it. *)
Lemma FileUploader_any_size (f : File) (rest : list File) (env : JSValue)
    (t : Timing) (o : FetchOutcome) :
  handleFiles (f :: rest) = handleFile f /\
  snd (analyze env t o (apply_updates initial (handleFiles (f :: rest)))) =
    [predict_request env f].
Proof. split; reflexivity. Qed.

(** ** The script client: messages *)

Lemma has_char_app (c : ascii) (a b : string) :
  has_char c (a +:+ b) = has_char c a || has_char c b.
Proof.
  induction a as [| d a IH]; simpl; [reflexivity |].
  rewrite IH. apply orb_assoc.
Qed.

Lemma prefix_has_char (c : ascii) (needle s : string) :
  String.prefix (String c needle) s = true -> has_char c s = true.
Proof.
  destruct s as [| d s]; simpl; [discriminate |].
  destruct (ascii_dec c d) as [-> | _]; [| discriminate].
  intros _. rewrite Ascii.eqb_refl. reflexivity.
Qed.

Lemma includes_has_char (c : ascii) (needle s : string) :
  includes (String c needle) s = true -> has_char c s = true.
Proof.
  induction s as [| d s IH].
  - simpl. discriminate.
  - intros H. cbn [includes] in H. apply orb_true_iff in H as [H | H].
    + apply (prefix_has_char _ _ _ H).
    + simpl. rewrite (IH H). apply orb_true_r.
Qed.

Lemma pretty_N_char_not_F (x : N) : Ascii.eqb "F" (pretty_N_char x) = false.
Proof. unfold pretty_N_char. repeat case_match; reflexivity. Qed.

Lemma pretty_N_go_no_F (x : N) (s : string) :
  has_char "F" s = false -> has_char "F" (pretty_N_go x s) = false.
Proof.
  revert s. induction (N.lt_wf_0 x) as [x _ IH]. intros s Hs.
  destruct (N.eq_dec x 0%N) as [-> | Hx].
  - rewrite pretty_N_go_0. exact Hs.
  - rewrite pretty_N_go_step by lia. apply IH.
    + apply N.div_lt; lia.
    + cbn [has_char]. rewrite pretty_N_char_not_F. exact Hs.
Qed.

Lemma pretty_N_no_F (x : N) : has_char "F" (pretty x) = false.
Proof.
  unfold pretty, pretty_N. destruct (decide (x = 0%N)); [reflexivity |].
  apply pretty_N_go_no_F. reflexivity.
Qed.

(** The generic message of the script is never taken for a network
    failure. *)
Lemma server_error_kept (status : N) :
  includes "Failed to fetch" ("Server error (" +:+ pretty status +:+ ")") =
    false.
Proof.
  destruct (includes _ _) eqn:E; [| reflexivity].
  apply includes_has_char in E.
  rewrite !has_char_app, pretty_N_no_F in E. discriminate.
Qed.


(** A body that is not JSON counts as the empty object. *)
Lemma script_try_block_unreadable (r : Response) (m : string) :
  ok r = false -> json r = NotJSON m ->
  Script.try_block (Responded r) =
    Throw ("Server error (" +:+ pretty (status r) +:+ ")").
Proof.
  intros Hok Hjson. unfold Script.try_block. rewrite Hok, Hjson. reflexivity.
Qed.

Lemma script_click_shows (o : FetchOutcome) (p : Script.Page) (f : File)
    (m : string) :
  Script.selectedFile p = Some f ->
  Script.try_block o = Throw m -> includes "Failed to fetch" m = false ->
  Script.statusMsg (fst (Script.click o p)) = Some (m, "error").
Proof.
  intros Hp Ho Hm. unfold Script.click, Script.click_begin. rewrite Hp.
  cbn [fst]. unfold Script.click_end. rewrite Ho, Hm. reflexivity.
Qed.

(** When [fetch] itself fails, the script does not show the error's
    message but a text of its own. *)
Lemma script_network_failure (p : Script.Page) (f : File) :
  Script.selectedFile p = Some f ->
  Script.statusMsg (fst (Script.click (Rejected "Failed to fetch") p)) =
    Some ("Cannot reach server. Is run_server.py running?", "error").
Proof.
  intros Hp. unfold Script.click, Script.click_begin. rewrite Hp. reflexivity.
Qed.

(** ** C5: responses with a failure status *)




(** ** C2: what a success response shows *)





(** ** C3: files with another extension *)

(** X1. The script client refuses such a file: the selection is
    unchanged, a warning is shown, and a click sends what it would have
    sent before. *)
Lemma script_refuses_extension (f : File) (p : Script.Page)
    (o : FetchOutcome) :
  Script.is_allowed (Script.extension f) = false ->
  Script.selectedFile (Script.handleFile (Some f) p) = Script.selectedFile p /\
  (exists msg, Script.statusMsg (Script.handleFile (Some f) p) =
                 Some (msg, "warn")) /\
  snd (Script.click o (Script.handleFile (Some f) p)) =
    snd (Script.click o p).
Proof.
  intros H. unfold Script.handleFile. rewrite H. cbn [negb].
  split; [reflexivity |]. split; [eexists; reflexivity |].
  unfold Script.click, Script.click_begin. cbn [Script.showStatus Script.selectedFile].
  destruct (Script.selectedFile p); reflexivity.
Qed.

Lemma script_refuses_extension_witness :
  Script.selectedFile
    (Script.handleFile (Some Samples.notes) Samples.script_chosen) =
    Some Samples.clip /\
  snd (Script.click (Rejected "Failed to fetch")
         (Script.handleFile (Some Samples.notes) Samples.script_chosen)) =
    [Script.predict_request Samples.clip].
Proof.
  destruct (script_refuses_extension Samples.notes Samples.script_chosen
              (Rejected "Failed to fetch") eq_refl) as (Hsel & _ & Hreq).
  split; [exact Hsel | exact Hreq].
Defined.

(** The script takes what follows the last dot, and the whole name when
    there is no dot: a file named [wav] passes the check. *)
Example script_accepts_bare_name :
  Script.is_allowed (Script.extension {| name := "wav"; content := [] |}) =
    true.
Proof. reflexivity. Qed.

Example script_refuses_notes :
  Script.handleFile (Some Samples.notes) Script.initial =
    Script.showStatus
      ("Invalid file type " +:+ Script.quote +:+ ".txt" +:+ Script.quote +:+
       ". Accepted: wav, flac, mp3, m4a, ogg") "warn" Script.initial /\
  snd (Script.click (Rejected "Failed to fetch")
         (Script.handleFile (Some Samples.notes) Script.initial)) = [].
Proof. split; vm_compute; reflexivity. Qed.

(** C3 on the React client: [FileUploader] checks no extension. A
    dropped [notes.txt] becomes the selected file, the Analyze button is
    enabled, and [analyze] sends the request with it. *)
Theorem C3_react_sends_any_extension :
  Script.is_allowed (Script.extension Samples.notes) = false /\
  let st := apply_updates initial (handleFiles [Samples.notes]) in
  file st = Some Samples.notes /\
  analyze_disabled st = false /\
  forall env t o,
    snd (analyze env t o st) = [predict_request env Samples.notes] /\
    body (predict_request env Samples.notes) = [("file", Samples.notes)].
Proof.
  split; [reflexivity |]. split; [reflexivity |]. split; [reflexivity |].
  intros env t o. split; reflexivity.
Qed.

(** * More of the code *)

(** ** The script: which files are uploaded *)

Lemma script_handleFile_selected (file : option File) (p : Script.Page)
    (f : File) :
  Script.selectedFile (Script.handleFile file p) = Some f ->
  Script.selectedFile p = Some f \/
  (file = Some f /\ Script.is_allowed (Script.extension f) = true).
Proof.
  unfold Script.handleFile. destruct file as [g |]; [| auto].
  destruct (Script.is_allowed (Script.extension g)) eqn:E; cbn [negb].
  - cbn [Script.selectedFile]. intros H. injection H as ->. auto.
  - cbn [Script.showStatus Script.selectedFile]. auto.
Qed.

Lemma script_click_begin_Some (p p' : Script.Page) (request : Request) :
  Script.click_begin p = Some (p', request) ->
  exists f, Script.selectedFile p = Some f /\
    request = Script.predict_request f /\
    Script.selectedFile p' = Some f /\
    Script.predictDisabled p' = true /\ Script.spinner p' = true.
Proof.
  unfold Script.click_begin. destruct (Script.selectedFile p) as [f |] eqn:E;
    [| discriminate].
  intros H. injection H as <- <-. exists f. cbn. auto.
Qed.

Lemma script_click_end_selected (o : FetchOutcome) (p : Script.Page) :
  Script.selectedFile (Script.click_end o p) = Script.selectedFile p.
Proof.
  unfold Script.click_end. destruct (Script.try_block o) as [args | m].
  - reflexivity.
  - destruct (includes "Failed to fetch" m); reflexivity.
Qed.

Lemma script_step_inv (u u' : ScriptUI.UI) :
  ScriptUI.step u u' -> ScriptUI.inv u -> ScriptUI.inv u'.
Proof.
  intros Hstep (Hsel & Hsent).
  destruct Hstep as [u file | u p request Hd Hb | u o n Hn];
    unfold ScriptUI.inv; cbn [ScriptUI.page ScriptUI.sent].
  - split; [| exact Hsent].
    intros f Hf.
    destruct (script_handleFile_selected _ _ _ Hf) as [H | (_ & H)]; auto.
  - destruct (script_click_begin_Some _ _ _ Hb) as (f & Hf & -> & Hf' & _).
    split.
    + intros g Hg. apply Hsel. congruence.
    + apply Forall_app. split; [exact Hsent |].
      constructor; [| constructor]. exists f. auto.
  - split; [| exact Hsent].
    intros f Hf. apply Hsel. rewrite script_click_end_selected in Hf.
    exact Hf.
Qed.

Lemma script_rtc_inv (u0 u : ScriptUI.UI) :
  rtc ScriptUI.step u0 u -> ScriptUI.inv u0 -> ScriptUI.inv u.
Proof.
  induction 1 as [u0 | u0 u1 u2 Hstep _ IH]; [auto |].
  intros Hinv. apply IH. eapply script_step_inv; eassumption.
Qed.

Lemma script_reachable_inv (u : ScriptUI.UI) :
  ScriptUI.reachable u -> ScriptUI.inv u.
Proof.
  intros (u0 & (Hsel & Hsent & _) & Hrtc).
  apply (script_rtc_inv u0 u Hrtc).
  split; [intros f Hf; congruence | rewrite Hsent; constructor].
Qed.

(** X2. Whatever files are picked or dropped, whenever the button is
    clicked and however the requests end, the script only ever uploads
    files whose extension passes its check: the selected file, and the
    file of every request sent, has an allowed extension; every request
    is a POST of the single field [file] to the predict URL. *)
Theorem script_uploads_only_allowed (u : ScriptUI.UI) :
  ScriptUI.reachable u ->
  (forall f, Script.selectedFile (ScriptUI.page u) = Some f ->
     Script.is_allowed (Script.extension f) = true) /\
  (forall r, In r (ScriptUI.sent u) ->
     exists f, body r = [("file", f)] /\ method r = "POST" /\
       url r = Script.API_URL /\
       Script.is_allowed (Script.extension f) = true).
Proof.
  intros Hreach. destruct (script_reachable_inv u Hreach) as (Hsel & Hsent).
  split; [exact Hsel |].
  intros r Hr. rewrite Forall_forall in Hsent.
  destruct (Hsent r) as (f & -> & Hf).
  - apply list_elem_of_In. exact Hr.
  - exists f. auto.
Qed.

Lemma script_waiting_reachable : ScriptUI.reachable Samples2.script_waiting.
Proof.
  exists Samples2.script_start. split; [repeat split |].
  eapply rtc_l; [apply (ScriptUI.step_choose _ (Some Samples.notes)) |].
  eapply rtc_l; [apply (ScriptUI.step_choose _ (Some Samples.clip)) |].
  eapply rtc_l; [eapply ScriptUI.step_click; reflexivity |].
  apply rtc_refl.
Defined.

Lemma script_uploads_only_allowed_witness :
  Script.is_allowed (Script.extension Samples.clip) = true /\
  exists f, body (Script.predict_request Samples.clip) = [("file", f)] /\
    method (Script.predict_request Samples.clip) = "POST" /\
    url (Script.predict_request Samples.clip) = Script.API_URL /\
    Script.is_allowed (Script.extension f) = true.
Proof.
  destruct (script_uploads_only_allowed Samples2.script_waiting
              script_waiting_reachable) as (Hsel & Hsent).
  split.
  - apply Hsel. reflexivity.
  - apply Hsent. left. reflexivity.
Defined.

(** X3. While one upload is pending, picking another allowed file
    enables the button again: the script can have two requests pending
    at once, one for each file, which the React page never has. *)
Theorem script_overlapping_requests (u0 : ScriptUI.UI) (f g : File) :
  ScriptUI.starts u0 ->
  Script.is_allowed (Script.extension f) = true ->
  Script.is_allowed (Script.extension g) = true ->
  exists u, rtc ScriptUI.step u0 u /\
    ScriptUI.pending u = 2 /\
    ScriptUI.sent u = [Script.predict_request f; Script.predict_request g] /\
    Script.spinner (ScriptUI.page u) = true.
Proof.
  intros (Hsel & Hsent & Hpend) Hf Hg.
  eexists. split.
  - eapply rtc_l; [apply (ScriptUI.step_choose _ (Some f)) |].
    eapply rtc_l.
    { eapply ScriptUI.step_click; cbn [ScriptUI.page];
        unfold Script.handleFile; rewrite Hf; reflexivity. }
    eapply rtc_l; [apply (ScriptUI.step_choose _ (Some g)) |].
    eapply rtc_l.
    { eapply ScriptUI.step_click; cbn [ScriptUI.page];
        unfold Script.handleFile; rewrite Hg; reflexivity. }
    apply rtc_refl.
  - cbn [ScriptUI.pending ScriptUI.sent ScriptUI.page]. rewrite Hsent, Hpend.
    split; [reflexivity |]. split; [reflexivity |]. reflexivity.
Qed.

Lemma script_overlapping_requests_witness :
  exists u, rtc ScriptUI.step Samples2.script_start u /\
    ScriptUI.pending u = 2 /\
    ScriptUI.sent u =
      [Script.predict_request Samples.clip;
       Script.predict_request Samples2.song] /\
    Script.spinner (ScriptUI.page u) = true.
Proof.
  apply (script_overlapping_requests Samples2.script_start Samples.clip
           Samples2.song); [repeat split | reflexivity | reflexivity].
Defined.

(** ** The script: the extension of a name *)

Lemma string_app_nil_r (s : string) : s +:+ "" = s.
Proof.
  induction s as [| c s IH]; [reflexivity |].
  change (String c (s +:+ "") = String c s). f_equal. exact IH.
Qed.

Lemma string_app_assoc (a b c : string) :
  (a +:+ b) +:+ c = a +:+ (b +:+ c).
Proof.
  induction a as [| x a IH]; [reflexivity |].
  change (String x ((a +:+ b) +:+ c) = String x (a +:+ (b +:+ c))).
  f_equal. exact IH.
Qed.

Lemma last_segment_no_dot (acc s : string) :
  has_char "." s = false -> Script.last_segment acc s = acc +:+ s.
Proof.
  revert acc. induction s as [| c s IH]; intros acc H.
  - simpl. symmetry. apply string_app_nil_r.
  - cbn [has_char] in H. apply orb_false_iff in H as (Hc & Hs).
    cbn [Script.last_segment].
    rewrite Ascii.eqb_sym, Hc. rewrite (IH _ Hs).
    rewrite string_app_assoc. reflexivity.
Qed.

Lemma last_segment_after_dot (acc base s : string) :
  Script.last_segment acc (base +:+ "." +:+ s) = Script.last_segment "" s.
Proof.
  revert acc. induction base as [| c base IH]; intros acc.
  - reflexivity.
  - change (Script.last_segment acc (String c (base +:+ "." +:+ s)) =
            Script.last_segment "" s).
    cbn [Script.last_segment]. destruct (Ascii.eqb c "."); apply IH.
Qed.

(** X4. The extension the script checks is what follows the last dot of
    the name, lower-cased, and the whole name, lower-cased, when the
    name has no dot: upper case passes, and of several dots only the
    last counts. *)
Theorem extension_is_last_segment (base ext : string)
    (bytes : list Byte.byte) :
  has_char "." ext = false ->
  Script.extension {| name := base +:+ "." +:+ ext; content := bytes |} =
    Script.toLowerCase ext /\
  Script.extension {| name := ext; content := bytes |} =
    Script.toLowerCase ext.
Proof.
  intros H. unfold Script.extension. cbn [name]. split.
  - rewrite last_segment_after_dot, (last_segment_no_dot _ _ H). reflexivity.
  - rewrite (last_segment_no_dot _ _ H). reflexivity.
Qed.

Lemma extension_is_last_segment_witness :
  Script.extension Samples2.song = "wav" /\
  Script.is_allowed
    (Script.extension
       {| name := "Song.wav.TXT"; content := content Samples2.song |}) =
    false.
Proof.
  split.
  - apply (proj1 (extension_is_last_segment "Song.Final" "WAV"
                    (content Samples2.song) eq_refl)).
  - refine (eq_trans
              (f_equal Script.is_allowed
                 (proj1 (extension_is_last_segment "Song.wav" "TXT"
                           (content Samples2.song) eq_refl))) _).
    reflexivity.
Defined.

(** ** The React page: what is on display *)

Lemma no_card_without_result (c t : JSValue) :
  Components.ResultCard_view JNull c t = Normal None.
Proof. reflexivity. Qed.

(** X5. On every reachable page of the React client at most one call of
    [analyze] is waiting for its response, and [processing] tells
    whether one is; the error panel and the result card are never shown
    together; while a call is waiting neither is shown and the button is
    disabled and reads [Analyzing...]. *)
Theorem react_single_flight (env : JSValue) (u : UI) :
  reachable env u ->
  let v := Components.App_view (app u) in
  (inflight u <= 1)%nat /\
  processing (app u) = Nat.eqb (inflight u) 1 /\
  (Components.panel v = None \/ Components.result_card v = Normal None) /\
  (inflight u = 1%nat ->
   Components.panel v = None /\
   Components.result_card v = Normal None /\
   Components.button_disabled v = true /\
   Components.button_label v = "Analyzing...").
Proof.
  intros Hreach v. pose proof (reachable_inv env u Hreach) as Hinv.
  unfold ui_inv in Hinv. subst v. unfold Components.App_view.
  cbn [Components.panel Components.result_card Components.button_disabled
       Components.button_label].
  destruct (inflight u) as [| [| k]]; [| | contradiction].
  - destruct Hinv as (Hp & Hex).
    split; [lia |]. split; [exact Hp |]. split; [| discriminate].
    destruct Hex as [Hr | He].
    + right. rewrite Hr. reflexivity.
    + left. unfold ErrorPanel. rewrite He. reflexivity.
  - destruct Hinv as (Hp & Hr & He).
    split; [lia |]. split; [exact Hp |].
    assert (Hpanel : ErrorPanel (app u) = None)
      by (unfold ErrorPanel; rewrite He; reflexivity).
    assert (Hcard : Components.ResultCard_view (result (app u))
                      (confidence (app u)) (processingTime (app u)) =
                    Normal None) by (rewrite Hr; reflexivity).
    split; [left; exact Hpanel |]. intros _.
    split; [exact Hpanel |]. split; [exact Hcard |].
    rewrite Hp. split; [| reflexivity].
    unfold analyze_disabled. rewrite Hp. destruct (file (app u)); reflexivity.
Qed.

Lemma waiting_reachable : reachable JUndefined Samples2.waiting.
Proof.
  unfold reachable.
  eapply rtc_l; [apply (step_select _ initial_ui [Samples.clip]) |].
  eapply rtc_l; [eapply step_click; reflexivity |].
  apply rtc_refl.
Defined.

Lemma react_single_flight_witness :
  Components.panel (Components.App_view (app Samples2.waiting)) = None /\
  Components.result_card (Components.App_view (app Samples2.waiting)) =
    Normal None /\
  Components.button_disabled (Components.App_view (app Samples2.waiting)) =
    true /\
  Components.button_label (Components.App_view (app Samples2.waiting)) =
    "Analyzing...".
Proof.
  apply (react_single_flight JUndefined Samples2.waiting waiting_reachable).
  reflexivity.
Defined.

(** The state [analyze] leaves after a success response. *)
Lemma analyze_end_success (t : Timing) (r : Response) (data s : JSValue) :
  ok r = true -> json r = Parsed data ->
  get_prop data "success" = Normal s -> truthy s = true ->
  analyze_end t (Responded r) =
    [SetResult (prop data "prediction");
     SetConfidence (prop data "confidence");
     SetAudioInfo (prop data "audio_info");
     SetProcessingTime
       (js_or (prop data "processing_time_seconds")
          (JNum (Finite ((endTime t - startTime t) / 1000))));
     SetProcessing false].
Proof.
  intros Hok Hjson Hs Ht. unfold analyze_end.
  rewrite (try_block_success t r data s Hok Hjson Hs Ht). reflexivity.
Qed.

Lemma analyze_success_state (env : JSValue) (t : Timing) (st : AppState)
    (f : File) (r : Response) (data s : JSValue) :
  file st = Some f -> ok r = true -> json r = Parsed data ->
  get_prop data "success" = Normal s -> truthy s = true ->
  fst (analyze env t (Responded r) st) =
    {| file := Some f; processing := false;
       result := prop data "prediction";
       confidence := prop data "confidence";
       error := JNull;
       audioInfo := prop data "audio_info";
       processingTime :=
         js_or (prop data "processing_time_seconds")
           (JNum (Finite ((endTime t - startTime t) / 1000))) |}.
Proof.
  intros Hf Hok Hjson Hs Ht. unfold analyze, analyze_begin. rewrite Hf.
  rewrite (analyze_end_success t r data s Hok Hjson Hs Ht).
  cbn. rewrite Hf. reflexivity.
Qed.

(** X6. A result can be shown for a file it was not computed for: when
    another file is chosen while the analysis of the first is pending,
    the response to the first request is stored and displayed beside the
    newly chosen file. *)
Theorem stale_result_for_new_file (env : JSValue) (f g : File)
    (t : Timing) (r : Response) (data s : JSValue) :
  ok r = true -> json r = Parsed data ->
  get_prop data "success" = Normal s -> truthy s = true ->
  let begin :=
    [SetProcessing true; SetResult JNull; SetConfidence (JNum (Finite 0));
     SetError JNull] in
  let s1 := apply_updates initial (handleFiles [f]) in
  let s3 := apply_updates (apply_updates s1 begin) (handleFiles [g]) in
  let s4 := apply_updates s3 (analyze_end t (Responded r)) in
  analyze_begin env s1 = Some (begin, predict_request env f) /\
  reachable env {| app := s4; inflight := 0 |} /\
  file s4 = Some g /\
  Components.player (Components.App_view s4) = Some (name g) /\
  result s4 = prop data "prediction" /\
  confidence s4 = prop data "confidence" /\
  processing s4 = false.
Proof.
  intros Hok Hjson Hs Ht begin s1 s3 s4.
  split; [reflexivity |]. split.
  - unfold reachable.
    eapply rtc_l; [apply (step_select _ initial_ui [f]) |].
    eapply rtc_l; [eapply step_click; reflexivity |].
    eapply rtc_l; [apply (step_select _ _ [g]) |].
    eapply rtc_l; [eapply (step_settle _ _ t (Responded r) 0); reflexivity |].
    apply rtc_refl.
  - subst s4. rewrite (analyze_end_success t r data s Hok Hjson Hs Ht).
    repeat split.
Qed.

Lemma stale_result_for_new_file_witness :
  let s4 :=
    apply_updates
      (apply_updates
         (apply_updates (apply_updates initial (handleFiles [Samples.clip]))
            [SetProcessing true; SetResult JNull;
             SetConfidence (JNum (Finite 0)); SetError JNull])
         (handleFiles [Samples2.song]))
      (analyze_end Samples.timing
         (Samples.responded 200 Samples2.full_body)) in
  file s4 = Some Samples2.song /\ result s4 = JStr "FAKE".
Proof.
  destruct (stale_result_for_new_file JUndefined Samples.clip Samples2.song
              Samples.timing
              {| status := 200; json := Parsed Samples2.full_body |}
              Samples2.full_body (JBool true)
              eq_refl eq_refl eq_refl eq_refl)
    as (_ & _ & Hfile & _ & Hres & _).
  split; [exact Hfile | exact Hres].
Defined.

(** X7. A success response whose [prediction] is missing (or falsy)
    shows nothing at all: no result card, no error panel, no note, the
    button enabled again. *)
Theorem success_without_prediction (env : JSValue) (t : Timing)
    (st : AppState) (f : File) (r : Response) (data s : JSValue) :
  file st = Some f -> ok r = true -> json r = Parsed data ->
  get_prop data "success" = Normal s -> truthy s = true ->
  truthy (prop data "prediction") = false ->
  let v := Components.App_view (fst (analyze env t (Responded r) st)) in
  Components.panel v = None /\
  Components.result_card v = Normal None /\
  Components.below v = Components.Rendered (prop data "prediction") /\
  Components.note v = false /\
  Components.button_disabled v = false.
Proof.
  intros Hf Hok Hjson Hs Ht Hp v. subst v.
  rewrite (analyze_success_state env t st f r data s Hf Hok Hjson Hs Ht).
  unfold Components.App_view, Components.ResultCard_view, ResultCard.
  cbn [result confidence processingTime error file processing audioInfo
       Components.panel Components.result_card Components.below
       Components.note Components.button_disabled].
  rewrite Hp. repeat split.
Qed.

Lemma success_without_prediction_witness :
  let v :=
    Components.App_view
      (fst (analyze JUndefined Samples.timing
              (Samples.responded 200 Samples2.empty_success)
              Samples.chosen)) in
  Components.panel v = None /\ Components.result_card v = Normal None.
Proof.
  destruct (success_without_prediction JUndefined Samples.timing
              Samples.chosen Samples.clip
              {| status := 200; json := Parsed Samples2.empty_success |}
              Samples2.empty_success (JBool true)
              eq_refl eq_refl eq_refl eq_refl eq_refl eq_refl)
    as (Hpanel & Hcard & _).
  split; [exact Hpanel | exact Hcard].
Defined.

(** ** The result card *)

(** The card after a success response with a truthy [prediction], when
    the stored time is a number. *)
Lemma card_after_success (env : JSValue) (t : Timing) (st : AppState)
    (f : File) (r : Response) (data s : JSValue) (m : JSNum) :
  file st = Some f -> ok r = true -> json r = Parsed data ->
  get_prop data "success" = Normal s -> truthy s = true ->
  truthy (prop data "prediction") = true ->
  js_or (prop data "processing_time_seconds")
    (JNum (Finite ((endTime t - startTime t) / 1000))) = JNum m ->
  Components.result_card
    (Components.App_view (fst (analyze env t (Responded r) st))) =
    Normal
      (Some
         {| Components.card :=
              {| badge := prop data "prediction";
                 fake := strict_eq_str (prop data "prediction") "FAKE";
                 indicator := prop data "confidence";
                 caption_confidence := prop data "confidence";
                 time := JNum m |};
            Components.icon :=
              if strict_eq_str (prop data "prediction") "FAKE"
              then "⚠️" else "✅";
            Components.time_text := toFixed2 m;
            Components.verdict :=
              if strict_eq_str (prop data "prediction") "FAKE"
              then "This audio appears to be AI-generated (synthetic Tamil speech)."
              else "This audio appears to be authentic human speech.";
            Components.circle :=
              option_map
                (fun n =>
                   CircularConfidence n
                     (strict_eq_str (prop data "prediction") "FAKE"))
                (ToNumber (prop data "confidence")) |}).
Proof.
  intros Hf Hok Hjson Hs Ht Hp Hm.
  rewrite (analyze_success_state env t st f r data s Hf Hok Hjson Hs Ht).
  unfold Components.App_view, Components.ResultCard_view, ResultCard.
  cbn [result confidence processingTime Components.result_card].
  rewrite Hp, Hm. reflexivity.
Qed.






(** X10. The processing time on the card: the locally measured time,
    with two decimals, when the server sent none (or zero); the server's
    number, with two decimals, when it sent one; and when the server
    sent anything else that is truthy (a string, say), rendering the
    card throws, since only numbers have [toFixed]. *)
Theorem card_processing_time (env : JSValue) (t : Timing)
    (st : AppState) (f : File) (r : Response) (data s : JSValue) :
  file st = Some f -> ok r = true -> json r = Parsed data ->
  get_prop data "success" = Normal s -> truthy s = true ->
  truthy (prop data "prediction") = true ->
  let seconds := prop data "processing_time_seconds" in
  let shown :=
    Components.result_card
      (Components.App_view (fst (analyze env t (Responded r) st))) in
  (truthy seconds = false ->
   exists view, shown = Normal (Some view) /\
     Components.time_text view =
       toFixed2 (Finite ((endTime t - startTime t) / 1000))) /\
  (forall m, seconds = JNum m -> truthy seconds = true ->
   exists view, shown = Normal (Some view) /\
     Components.time_text view = toFixed2 m) /\
  (truthy seconds = true -> (forall m, seconds <> JNum m) ->
   exists message, shown = Throw message).
Proof.
  intros Hf Hok Hjson Hs Ht Hp seconds shown.
  split; [| split].
  - intros Hfalsy. subst shown.
    rewrite (card_after_success env t st f r data s
               (Finite ((endTime t - startTime t) / 1000))
               Hf Hok Hjson Hs Ht Hp (js_or_falsy _ _ Hfalsy)).
    eexists. split; reflexivity.
  - intros m Hm Htruthy. subst shown.
    rewrite (card_after_success env t st f r data s m
               Hf Hok Hjson Hs Ht Hp).
    + eexists. split; reflexivity.
    + fold seconds. rewrite (js_or_truthy _ _ Htruthy). exact Hm.
  - intros Htruthy Hnot. subst shown.
    rewrite (analyze_success_state env t st f r data s Hf Hok Hjson Hs Ht).
    unfold Components.App_view, Components.ResultCard_view, ResultCard.
    cbn [result confidence processingTime Components.result_card].
    rewrite Hp. fold seconds. rewrite (js_or_truthy _ _ Htruthy).
    cbn [negb].
    destruct seconds as [| | b | m | x | l | o]; try discriminate;
      try (eexists; reflexivity).
    exfalso. apply (Hnot m). reflexivity.
Qed.

Lemma card_processing_time_witness :
  (exists view,
     Components.result_card
       (Components.App_view
          (fst (analyze JUndefined Samples.timing
                  (Samples.responded 200 Samples.untimed_body)
                  Samples.chosen))) = Normal (Some view) /\
     Components.time_text view = toFixed2 (Finite ((1820 - 1000) / 1000))) /\
  (exists message,
     Components.result_card
       (Components.App_view
          (fst (analyze JUndefined Samples.timing
                  (Samples.responded 200 Samples2.text_time_body)
                  Samples.chosen))) = Throw message).
Proof.
  destruct (card_processing_time JUndefined Samples.timing Samples.chosen
              Samples.clip
              {| status := 200; json := Parsed Samples.untimed_body |}
              Samples.untimed_body (JBool true)
              eq_refl eq_refl eq_refl eq_refl eq_refl eq_refl)
    as (Hlocal & _).
  destruct (card_processing_time JUndefined Samples.timing Samples.chosen
              Samples.clip
              {| status := 200; json := Parsed Samples2.text_time_body |}
              Samples2.text_time_body (JBool true)
              eq_refl eq_refl eq_refl eq_refl eq_refl eq_refl)
    as (_ & _ & Hthrow).
  split.
  - apply Hlocal. reflexivity.
  - apply Hthrow; [reflexivity | intros m; discriminate].
Defined.

(** ** A failure status with a body that is not JSON *)

(** X11. When a response with a failure status carries a body that is
    not JSON (an HTML error page, say), the React client shows the
    message of the JSON parser, not the status; the script shows its
    generic [Server error (<status>)]. *)
Theorem failure_body_not_json (env : JSValue) (t : Timing)
    (st : AppState) (p : Script.Page) (f : File) (r : Response)
    (m : string) :
  file st = Some f -> Script.selectedFile p = Some f ->
  ok r = false -> json r = NotJSON m -> m <> "" ->
  Components.panel
    (Components.App_view (fst (analyze env t (Responded r) st))) =
    Some (JStr m) /\
  Script.statusMsg (fst (Script.click (Responded r) p)) =
    Some ("Server error (" +:+ pretty (status r) +:+ ")", "error").
Proof.
  intros Hf Hp Hok Hjson Hm. split.
  - unfold analyze, analyze_begin. rewrite Hf. cbn [fst].
    rewrite (analyze_end_message t (Responded r) m); [| | | exact Hm].
    + cbn. apply truthy_JStr in Hm. cbn in Hm.
      unfold ErrorPanel. cbn. rewrite Hm. reflexivity.
    + unfold failed. rewrite Hok. reflexivity.
    + unfold error_message. rewrite Hjson. reflexivity.
  - apply (script_click_shows _ _ f); [exact Hp | | apply server_error_kept].
    apply (script_try_block_unreadable r m Hok Hjson).
Qed.

Lemma failure_body_not_json_witness :
  Components.panel
    (Components.App_view
       (fst (analyze JUndefined Samples.timing
               (Responded {| status := 502; json := NotJSON "Unexpected token <" |})
               Samples.chosen))) =
    Some (JStr "Unexpected token <") /\
  Script.statusMsg
    (fst (Script.click
            (Responded {| status := 502; json := NotJSON "Unexpected token <" |})
            Samples.script_chosen)) =
    Some ("Server error (" +:+ pretty 502%N +:+ ")", "error").
Proof.
  apply (failure_body_not_json JUndefined Samples.timing Samples.chosen
           Samples.script_chosen Samples.clip
           {| status := 502; json := NotJSON "Unexpected token <" |}
           "Unexpected token <" eq_refl eq_refl eq_refl eq_refl).
  discriminate.
Defined.

(** ** The statistics under the card *)

Lemma Number_toString_whole (z : Z) :
  (0 <= z)%Z -> Number_toString (Finite (inject_Z z)) = pretty z.
Proof.
  intros Hz. unfold Number_toString, Qneg.
  change 0%Q with (inject_Z 0). rewrite Qle_bool_inject_Z.
  destruct (Z.leb_spec 0 z) as [_ | H]; [| lia]. cbn [negb].
  unfold decimal_of, inject_Z. cbn [Qnum Qden].
  rewrite Z.mod_1_r, Z.div_1_r. reflexivity.
Qed.

Lemma round_kilobytes (n : Z) :
  Math_round (js_div (Finite (inject_Z n)) (Finite 1024)) =
    Finite (inject_Z ((n + 512) / 1024)).
Proof.
  unfold js_div. change (Qzero 1024) with false. cbn [Math_round].
  do 2 f_equal.
  assert (E : (inject_Z n / 1024 + (1 # 2) == (n + 512) # 1024)%Q).
  { unfold Qeq, Qdiv, Qmult, Qplus, Qinv, inject_Z. cbn. lia. }
  rewrite E. reflexivity.
Qed.

Lemma file_size_text_value (f : File) :
  Components.file_size_text f =
    pretty (Z.max 10 ((Z.of_nat (size f) + 512) / 1024)) +:+ " KB".
Proof.
  unfold Components.file_size_text. rewrite round_kilobytes.
  change (Finite 10) with (Finite (inject_Z 10)).
  rewrite Math_max_inject_Z, Number_toString_whole by lia. reflexivity.
Qed.

(** X12. Without a file size from the server, the size shown for the
    chosen file is its length in bytes divided by 1024 and rounded to
    the nearest whole number, but never less than 10: every file shorter
    than 10752 bytes is shown as [10 KB]. *)
Theorem stats_size_never_below_10 (f : File) (audioInfo : JSValue) :
  truthy (optional_prop audioInfo "file_size") = false ->
  let shown := Components.size_cell (Components.StatsCards (Some f) audioInfo) in
  shown =
    JStr (pretty (Z.max 10 ((Z.of_nat (size f) + 512) / 1024)) +:+ " KB") /\
  ((Z.of_nat (size f) < 10752)%Z -> shown = JStr "10 KB").
Proof.
  intros H shown. subst shown. unfold Components.StatsCards.
  cbn [Components.size_cell]. rewrite H, file_size_text_value.
  split; [reflexivity |].
  intros Hsmall.
  replace (Z.max 10 ((Z.of_nat (size f) + 512) / 1024)) with 10%Z;
    [reflexivity |].
  assert ((Z.of_nat (size f) + 512) / 1024 < 11)%Z
    by (apply Z.div_lt_upper_bound; lia).
  lia.
Qed.

Lemma stats_size_never_below_10_witness :
  Components.size_cell (Components.StatsCards (Some Samples.clip) JNull) =
    JStr "10 KB".
Proof.
  apply (stats_size_never_below_10 Samples.clip JNull eq_refl).
  reflexivity.
Defined.

(** X13. A duration or a sample rate that is missing, null or 0 is shown
    as a dash without its unit, and a number other than 0 with its unit;
    with no audio information at all the three cells are the dash, the
    dash and the size of the chosen file. *)
Theorem stats_missing_values (file : option File) (audioInfo : JSValue) :
  let stats := Components.StatsCards file audioInfo in
  (truthy (optional_prop audioInfo "duration") = false ->
   Components.duration_cell stats =
     [JStr Components.em_dash; JBool false]) /\
  (truthy (optional_prop audioInfo "sample_rate") = false ->
   Components.sampleRate_cell stats = JStr Components.em_dash) /\
  (forall n, optional_prop audioInfo "duration" = JNum n ->
     truthy (JNum n) = true ->
     Components.duration_cell stats = [JNum n; JStr "s"]) /\
  (forall n, optional_prop audioInfo "sample_rate" = JNum n ->
     truthy (JNum n) = true ->
     Components.sampleRate_cell stats =
       JStr (Number_toString n +:+ "Hz")) /\
  (audioInfo = JNull \/ audioInfo = JUndefined ->
   stats =
     {| Components.duration_cell := [JStr Components.em_dash; JBool false];
        Components.sampleRate_cell := JStr Components.em_dash;
        Components.size_cell :=
          match file with
          | Some f => JStr (Components.file_size_text f)
          | None => JStr Components.em_dash
          end |}).
Proof.
  intros stats. subst stats. unfold Components.StatsCards.
  cbn [Components.duration_cell Components.sampleRate_cell].
  split; [| split; [| split; [| split]]].
  - intros H. rewrite (js_or_falsy _ _ H). reflexivity.
  - intros H. rewrite (js_or_falsy _ _ H). reflexivity.
  - intros n Hn Ht. rewrite Hn, (js_or_truthy _ _ Ht). reflexivity.
  - intros n Hn Ht. rewrite Hn, (js_or_truthy _ _ Ht). reflexivity.
  - intros [-> | ->]; reflexivity.
Qed.

Lemma stats_missing_values_witness :
  Components.duration_cell
    (Components.StatsCards (Some Samples.clip)
       (JObj {["duration" := JNum (Finite 0)]})) =
    [JStr Components.em_dash; JBool false] /\
  Components.duration_cell
    (Components.StatsCards (Some Samples.clip)
       (JObj {["duration" := JNum (Finite (234 # 100))]})) =
    [JNum (Finite (234 # 100)); JStr "s"].
Proof.
  destruct (stats_missing_values (Some Samples.clip)
              (JObj {["duration" := JNum (Finite 0)]})) as (Hzero & _).
  destruct (stats_missing_values (Some Samples.clip)
              (JObj {["duration" := JNum (Finite (234 # 100))]}))
    as (_ & _ & Hnum & _).
  split.
  - apply Hzero. reflexivity.
  - apply Hnum; reflexivity.
Defined.

(** ** The counter of [ModelInfoCard] *)

Lemma inject_nat_succ (n : nat) :
  (inject_Z (Z.of_nat (S n)) == inject_Z (Z.of_nat n) + 1)%Q.
Proof.
  rewrite Nat2Z.inj_succ. unfold Z.succ. rewrite inject_Z_plus. reflexivity.
Qed.

Lemma inject_nat_le (n m : nat) :
  (n <= m)%nat -> (inject_Z (Z.of_nat n) <= inject_Z (Z.of_nat m))%Q.
Proof. intros H. rewrite <- Zle_Qle. lia. Qed.

Lemma inject_nat_nonneg (n : nat) : (0 <= inject_Z (Z.of_nat n))%Q.
Proof. change 0%Q with (inject_Z 0). rewrite <- Zle_Qle. lia. Qed.

(** The counter after [n] firings, in closed form. *)
Lemma counter_after (n : nat) :
  let c := Nat.iter n Components.tick Components.start in
  Components.i c = Nat.min n 21 /\
  Components.running c = (n <? 21)%nat /\
  ((n < 20)%nat ->
   (Components.acc c ==
      inject_Z (Z.of_nat n) * (Components.target / 20))%Q) /\
  ((20 <= n)%nat -> Components.acc c = Components.target).
Proof.
  induction n as [| n IH].
  - cbn. repeat split; try reflexivity. intros H. lia.
  - cbn zeta in *.
    change (Nat.iter (S n) Components.tick Components.start)
      with (Components.tick (Nat.iter n Components.tick Components.start)).
    set (c := Nat.iter n Components.tick Components.start) in *.
    destruct IH as (Hi & Hr & Hlow & Hhigh).
    unfold Components.tick. rewrite Hr.
    destruct (Nat.ltb_spec n 21) as [Hn | Hn].
    + cbn [Components.i Components.running Components.acc]. rewrite Hi.
      replace (Nat.min n 21) with n by lia.
      split; [lia |]. split.
      { destruct (Nat.ltb_spec 20 (S n)), (Nat.ltb_spec (S n) 21);
          try reflexivity; lia. }
      split.
      * intros Hs. pose proof (Hlow ltac:(lia)) as Hacc.
        pose proof (inject_nat_le n 18 ltac:(lia)) as Hx.
        pose proof (inject_nat_succ n) as Hsucc.
        change (inject_Z (Z.of_nat 18)) with 18%Q in Hx.
        unfold Components.target in *.
        change ((945 # 10) / 20)%Q with (945 # 200)%Q in *.
        destruct (Qle_bool (945 # 10) (Components.acc c + (945 # 200)))
          eqn:E.
        -- apply Qle_bool_iff in E. lra.
        -- rewrite Hacc, Hsucc. lra.
      * intros Hs.
        destruct (Qle_bool Components.target
                    (Components.acc c + Components.target / 20)) eqn:E;
          [reflexivity |].
        exfalso.
        assert (Hle : (Components.target <=
                       Components.acc c + Components.target / 20)%Q).
        { destruct (Nat.eq_dec n 20) as [-> | Hne].
          - rewrite (Hhigh ltac:(lia)). unfold Components.target.
            change ((945 # 10) / 20)%Q with (945 # 200)%Q. lra.
          - assert (n = 19)%nat as -> by lia.
            rewrite (Hlow ltac:(lia)). unfold Components.target.
            change ((945 # 10) / 20)%Q with (945 # 200)%Q.
            change (inject_Z (Z.of_nat 19)) with 19%Q. lra. }
        apply Qle_bool_iff in Hle. congruence.
    + split; [lia |]. split.
      { rewrite Hr. destruct (Nat.ltb_spec (S n) 21); [lia | reflexivity]. }
      split; [intros H; lia | intros _; apply Hhigh; lia].
Qed.

Lemma counter_bounds (n : nat) :
  (0 <= Components.acc (Nat.iter n Components.tick Components.start) <=
   Components.target)%Q.
Proof.
  destruct (counter_after n) as (_ & _ & Hlow & Hhigh).
  destruct (Nat.lt_ge_cases n 20) as [Hn | Hn].
  - rewrite (Hlow Hn).
    pose proof (inject_nat_le n 19 ltac:(lia)) as Hx.
    pose proof (inject_nat_nonneg n) as H0.
    change (inject_Z (Z.of_nat 19)) with 19%Q in Hx.
    unfold Components.target.
    change ((945 # 10) / 20)%Q with (945 # 200)%Q. lra.
  - rewrite (Hhigh Hn). unfold Components.target. lra.
Qed.

(** X14. The accuracy shown by [ModelInfoCard] climbs from 0 without
    ever exceeding 94.5 and without ever decreasing; the interval fires
    exactly 21 times; from then on the counter stands at 94.5, further
    firings change nothing and the card reads [94.5%]. *)
Theorem accuracy_counter (n : nat) :
  let c := Nat.iter n Components.tick Components.start in
  (0 <= Components.acc c <= Components.target)%Q /\
  (Components.acc c <= Components.acc (Components.tick c))%Q /\
  (Components.i c <= 21)%nat /\
  (Components.running c = true <-> (n < 21)%nat) /\
  ((21 <= n)%nat ->
   Components.acc c = Components.target /\
   Components.tick c = c /\
   Components.accuracy_text c = "94.5%").
Proof.
  intros c.
  destruct (counter_after n) as (Hi & Hr & Hlow & Hhigh). fold c in Hi, Hr, Hlow, Hhigh.
  split; [apply counter_bounds |].
  split.
  - change (Components.tick c)
      with (Nat.iter (S n) Components.tick Components.start).
    destruct (counter_after (S n)) as (_ & _ & Hlow' & Hhigh').
    destruct (Nat.lt_ge_cases (S n) 20) as [Hn | Hn].
    + rewrite (Hlow' Hn), (Hlow ltac:(lia)), (inject_nat_succ n).
      pose proof (inject_nat_nonneg n). unfold Components.target.
      change ((945 # 10) / 20)%Q with (945 # 200)%Q. lra.
    + rewrite (Hhigh' Hn). apply counter_bounds.
  - split; [rewrite Hi; lia |].
    split.
    + rewrite Hr. destruct (Nat.ltb_spec n 21); split; intros; try lia;
        try reflexivity; discriminate.
    + intros Hn.
      assert (Hacc : Components.acc c = Components.target)
        by (apply Hhigh; lia).
      split; [exact Hacc |]. split.
      * unfold Components.tick. rewrite Hr.
        destruct (Nat.ltb_spec n 21); [lia | reflexivity].
      * unfold Components.accuracy_text. rewrite Hacc. reflexivity.
Qed.

Lemma accuracy_counter_witness :
  Components.acc (Nat.iter 21 Components.tick Components.start) =
    Components.target /\
  Components.accuracy_text
    (Nat.iter 21 Components.tick Components.start) = "94.5%".
Proof.
  destruct (accuracy_counter 21) as (_ & _ & _ & _ & H).
  destruct (H (le_n 21)) as (Hacc & _ & Htext).
  split; [exact Hacc | exact Htext].
Defined.

(** ** Labels other than the expected ones *)

Lemma strict_eq_str_false (v : JSValue) (s : string) :
  v <> JStr s -> strict_eq_str v s = false.
Proof.
  destruct v as [| | b | n | x | l | o]; try reflexivity.
  intros H. simpl. destruct (String.eqb_spec x s) as [-> | _];
    [contradiction | reflexivity].
Qed.

(** X15. The two clients treat an unexpected label in opposite ways.
    The React card is red only for the exact string [FAKE]: any other
    result it shows (a label in lower case, say) is presented as
    authentic human speech. The script's box is styled as real only for
    the exact string [REAL]: any other label gets the warning badge. *)
Theorem unexpected_label (label c t : JSValue) (n : JSNum)
    (view : Components.CardView) :
  label <> JStr "FAKE" -> label <> JStr "REAL" ->
  Components.ResultCard_view label c t = Normal (Some view) ->
  (fake (Components.card view) = false /\
   Components.icon view = "✅" /\
   Components.verdict view =
     "This audio appears to be authentic human speech." /\
   (forall circle, Components.circle view = Some circle ->
      red circle = false)) /\
  (Script.isReal (Script.showResult label n) = false /\
   Script.resultBadge (Script.showResult label n) = "⚠ Warning").
Proof.
  intros Hfake Hreal Hview. split.
  - unfold Components.ResultCard_view, ResultCard in Hview.
    rewrite (strict_eq_str_false _ _ Hfake) in Hview.
    destruct (truthy label); cbn [negb] in Hview; [| discriminate].
    destruct (call_toFixed2 t) as [txt | m]; [| discriminate].
    injection Hview as <-. cbn. repeat split.
    intros circle Hc. destruct (ToNumber c) as [x |]; [| discriminate].
    injection Hc as <-. reflexivity.
  - unfold Script.showResult. rewrite (strict_eq_str_false _ _ Hreal).
    split; reflexivity.
Qed.

Lemma unexpected_label_witness :
  (exists view,
     Components.ResultCard_view (JStr "fake") (JNum (Finite 99))
       (JNum (Finite 1)) = Normal (Some view) /\
     Components.verdict view =
       "This audio appears to be authentic human speech.") /\
  Script.resultBadge (Script.showResult (JStr "fake") (Finite (99 # 100))) =
    "⚠ Warning".
Proof.
  split.
  - eexists. split; [reflexivity |].
    eapply (unexpected_label (JStr "fake") (JNum (Finite 99))
              (JNum (Finite 1)) (Finite (99 # 100)));
      [discriminate | discriminate | reflexivity].
  - eapply (unexpected_label (JStr "fake") (JNum (Finite 99))
              (JNum (Finite 1)) (Finite (99 # 100)));
      [discriminate | discriminate | reflexivity].
Defined.

(** ** The script: how a click ends *)


